(** * Observability core of the document pipeline

    A shallow embedding of the instrumentation code shared by the two
    services of the repository:

    - [telemetry.py]      : the [correlation_id] context variable and its
                            accessors;
    - [observability.py]  : [log_request_metrics], [create_span],
                            [log_with_context], [track_db_operation] and
                            its [DBOperationTracker];
    - [main.py]           : the [add_process_time_header] middleware and
                            the [health_check] route.

    Python code runs in a state-and-exception monad over a [world] that
    holds the ambient context, the wall clock, and the trace of calls made
    into the OpenTelemetry and [logging] APIs. *)

From Stdlib Require Import ZArith QArith.QArith_base.
From stdpp Require Import base option list strings pretty gmap fin_maps.

Set Default Proof Using "Type".
Local Open Scope string_scope.
Local Open Scope Z_scope.

(** ** Python values and dictionaries *)

(** The scalars that the code stores in label sets, span attributes and log
    records.  A [float] is a rational here: the code only subtracts clock
    readings and passes the result on. *)
Inductive value : Type :=
  | VStr (s : string)
  | VBool (b : bool)
  | VInt (z : Z)
  | VFloat (q : Q)
  | VNone.

(** A [dict] with string keys; [kw ∪ d] is the literal [{**d, **kw}]:
    on a shared key the left operand wins. *)
Abbreviation dict := (gmap string value).

(** A raised exception: the name of its class ([exc_type.__name__]) and its
    text ([str(exc_val)]). *)
Record exn : Type := Exn { exn_type : string; exn_str : string }.

Inductive result (A : Type) : Type :=
  | Ok (a : A)
  | Raise (e : exn).
Arguments Ok {A} a.
Arguments Raise {A} e.

(** ** Calls into the instrumentation back ends *)

(** [logging] levels, with the numbers of the standard library. *)
Inductive Level : Type := DEBUG | INFO | WARNING | ERROR | CRITICAL.

Definition levelno (l : Level) : Z :=
  match l with
  | DEBUG => 10 | INFO => 20 | WARNING => 30 | ERROR => 40 | CRITICAL => 50
  end.

Inductive SpanKind : Type := INTERNAL.

(** One entry per call that leaves the instrumented code. *)
Inductive event : Type :=
  | CounterAdd (instrument : string) (amount : Z) (attributes : dict)
  | HistogramRecord (instrument : string) (amount : Q) (attributes : dict)
  | SpanStart (span : nat) (name : string) (kind : SpanKind) (attributes : dict)
  | SpanSetAttribute (span : nat) (key : string) (v : value)
  | SpanEnd (span : nat)
  | LoggerCall (level : Level) (msg : string) (extra : dict).

(** ** The world *)

Record world : Type := World {
  w_context : gmap string string;  (* the current [contextvars.Context] *)
  w_clock : list Q;                (* future readings of [time.time()] *)
  w_loglevel : Level;              (* effective level of the module logger *)
  w_next_span : nat;               (* handle of the next span started *)
  w_trace : list event;            (* calls made so far, oldest first *)
}.

Definition set_context (c : gmap string string) (w : world) : world :=
  World c (w_clock w) (w_loglevel w) (w_next_span w) (w_trace w).
Definition set_clock (c : list Q) (w : world) : world :=
  World (w_context w) c (w_loglevel w) (w_next_span w) (w_trace w).
Definition set_next_span (n : nat) (w : world) : world :=
  World (w_context w) (w_clock w) (w_loglevel w) n (w_trace w).
Definition set_trace (t : list event) (w : world) : world :=
  World (w_context w) (w_clock w) (w_loglevel w) (w_next_span w) t.

(** ** The monad of Python statements *)

Definition M (A : Type) : Type := world → result A * world.

Definition ret {A} (a : A) : M A := λ w, (Ok a, w).
Definition raise {A} (e : exn) : M A := λ w, (Raise e, w).
Definition bind {A B} (m : M A) (k : A → M B) : M B :=
  λ w, match m w with
       | (Ok a, w') => k a w'
       | (Raise e, w') => (Raise e, w')
       end.

(** [x ← m; k] and [m;; k] below are [bind]. *)
#[global] Instance M_ret : MRet M := @ret.
#[global] Instance M_bind : MBind M := λ A B k m, bind m k.

(** Append one call to the trace. *)
Definition emit (e : event) : M unit :=
  λ w, (Ok tt, set_trace (w_trace w ++ [e]) w).

(** [time.time()]: the next reading of the clock. *)
Definition time_time : M Q :=
  λ w, match w_clock w with
       | [] => (Ok 0%Q, w)
       | t :: rest => (Ok t, set_clock rest w)
       end.

(** The [with] statement over a context manager whose [__enter__] returns
    the manager itself.  [exit] is [__exit__], given the exception in flight
    if any; it answers whether its return value is true, which suppresses
    the exception, and then the statement yields [None]. *)
Definition with_ {T A} (enter : M T) (exit : T → option exn → M bool)
    (body : T → M A) : M (option A) :=
  λ w, match enter w with
       | (Raise e, w1) => (Raise e, w1)
       | (Ok t, w1) =>
           match body t w1 with
           | (Ok a, w2) =>
               match exit t None w2 with
               | (Ok _, w3) => (Ok (Some a), w3)
               | (Raise e', w3) => (Raise e', w3)
               end
           | (Raise e, w2) =>
               match exit t (Some e) w2 with
               | (Ok true, w3) => (Ok None, w3)
               | (Ok false, w3) => (Raise e, w3)
               | (Raise e', w3) => (Raise e', w3)
               end
           end
       end.

(** ** Keyword arguments *)

(** A call [f(..., **kw)] fails with [TypeError] when [kw] repeats one of
    the arguments already bound. *)
Definition TypeError_multiple (fn arg : string) : exn :=
  Exn "TypeError" (fn +:+ "() got multiple values for argument '" +:+ arg +:+ "'").

Fixpoint check_kwargs (fn : string) (bound : list string) (kw : dict) : M unit :=
  match bound with
  | [] => ret tt
  | p :: rest =>
      match kw !! p with
      | Some _ => raise (TypeError_multiple fn p)
      | None => check_kwargs fn rest kw
      end
  end.

(** ** The module logger *)

(** Attributes of a [logging.LogRecord]; [Logger.makeRecord] refuses an
    [extra] that names one of them. *)
Definition LogRecord_reserved : list string :=
  [ "name"; "msg"; "args"; "levelname"; "levelno"; "pathname"; "filename";
    "module"; "exc_info"; "exc_text"; "stack_info"; "lineno"; "funcName";
    "created"; "msecs"; "relativeCreated"; "thread"; "threadName";
    "processName"; "process"; "message"; "asctime" ].

Definition first_reserved (extra : dict) : option string :=
  List.find (λ k, bool_decide (is_Some (extra !! k))) LogRecord_reserved.

Definition KeyError_overwrite (k : string) : exn :=
  Exn "KeyError" ("Attempt to overwrite '" +:+ k +:+ "' in LogRecord").

(** [logger.<level>(msg, extra=extra)].  A logger enabled for the level makes
    the record, which raises on a reserved key (when several are present
    the model names the first of [LogRecord_reserved]).  The trace records
    every call that returns; whether a handler then writes the line is left
    to the level configuration. *)
Definition logger_log (level : Level) (msg : string) (extra : dict) : M unit :=
  λ w, if bool_decide (levelno (w_loglevel w) ≤ levelno level) then
         match first_reserved extra with
         | Some k => (Raise (KeyError_overwrite k), w)
         | None => emit (LoggerCall level msg extra) w
         end
       else emit (LoggerCall level msg extra) w.

(** ** The tracer and the meter *)

(** The OpenTelemetry calls below are recorded in the trace and return:
    the API does not raise into instrumented code. *)

(** [tracer.start_span(name=..., kind=..., attributes=...)] *)
Definition tracer_start_span (name : string) (kind : SpanKind)
    (attributes : dict) : M nat :=
  λ w, let span := w_next_span w in
       (Ok span,
        set_trace (w_trace w ++ [SpanStart span name kind attributes])
          (set_next_span (S span) w)).

Definition span_set_attribute (span : nat) (key : string) (v : value) : M unit :=
  emit (SpanSetAttribute span key v).

Definition span_end (span : nat) : M unit := emit (SpanEnd span).

(** [counter.add(amount, attributes)] and [histogram.record(amount, attributes)] *)
Definition counter_add (instrument : string) (amount : Z) (attributes : dict) : M unit :=
  emit (CounterAdd instrument amount attributes).

Definition histogram_record (instrument : string) (amount : Q) (attributes : dict) : M unit :=
  emit (HistogramRecord instrument amount attributes).

Definition lift_result {A} (r : result A) : M A := λ w, (r, w).

(** The built-in classes that derive from [BaseException] and not from
    [Exception]; an exception is known by the name of its class. *)
Definition BaseException_only : list string :=
  [ "BaseException"; "BaseExceptionGroup"; "GeneratorExit";
    "KeyboardInterrupt"; "SystemExit"; "CancelledError" ].

(** Whether [except Exception] catches the exception. *)
Definition is_Exception (e : exn) : bool :=
  negb (bool_decide (exn_type e ∈ BaseException_only)).

(** [try: body except Exception as e: handler e]; an exception that is
    not an [Exception] passes through. *)
Definition try_except {A} (body : M A) (handler : exn → M A) : M A :=
  λ w, match body w with
       | (Ok a, w') => (Ok a, w')
       | (Raise e, w') => if is_Exception e then handler e w' else (Raise e, w')
       end.

(** The outcome of a [try] body under [except Exception as e], handed to
    the code after it; an exception that is not an [Exception] passes
    through. *)
Definition catch {A} (body : M A) : M (result A) :=
  λ w, match body w with
       | (Ok a, w') => (Ok (Ok a), w')
       | (Raise e, w') =>
           if is_Exception e then (Ok (Raise e), w') else (Raise e, w')
       end.

(** * telemetry.py *)

(** A [ContextVar]: its name and, when declared with one, its default. *)
Record ContextVar : Type := {
  cv_name : string;
  cv_default : option string;
}.

Definition LookupError (var : ContextVar) : exn :=
  Exn "LookupError" (cv_name var).

(** [var.get()]: the value in the current context, else the default, else
    [LookupError]. *)
Definition ContextVar_get (var : ContextVar) : M string :=
  λ w, match w_context w !! cv_name var with
       | Some v => (Ok v, w)
       | None =>
           match cv_default var with
           | Some d => (Ok d, w)
           | None => (Raise (LookupError var), w)
           end
       end.

(** [var.set(v)] binds the variable in the current context. *)
Definition ContextVar_set (var : ContextVar) (v : string) : M unit :=
  λ w, (Ok tt, set_context (<[cv_name var := v]> (w_context w)) w).

(** [correlation_id: ContextVar[str] = ContextVar("correlation_id", default="")] *)
Definition correlation_id : ContextVar :=
  {| cv_name := "correlation_id"; cv_default := Some "" |}.

Definition get_correlation_id : M string := ContextVar_get correlation_id.

Definition set_correlation_id (corr_id : string) : M unit :=
  ContextVar_set correlation_id corr_id.

(** [generate_correlation_id()] is [str(uuid.uuid4())]; [uuid4] is the text
    of the identifier drawn by this call. *)
Definition generate_correlation_id (uuid4 : string) : M string := mret uuid4.

(** ** Requests and responses *)

Record Request : Type := {
  method : string;
  path : string;          (* [request.url.path] *)
}.

(** A response; its headers are kept under their lower-case names, as the
    framework keeps them, with one value for a name. *)
Record Response : Type := {
  status_code : Z;
  headers : gmap string string;
  body : string;
}.

(** [str.lower()] on a header name, which is ASCII. *)
Definition ascii_lower (c : Ascii.ascii) : Ascii.ascii :=
  let n := Ascii.nat_of_ascii c in
  if (65 <=? n)%nat && (n <=? 90)%nat then Ascii.ascii_of_nat (n + 32) else c.

Fixpoint lower (s : string) : string :=
  match s with
  | EmptyString => EmptyString
  | String c rest => String (ascii_lower c) (lower rest)
  end.

(** [response.headers[k] = v]: the name is matched without regard to
    case, and the value replaces the one that is there. *)
Definition set_header (k v : string) (r : Response) : Response :=
  {| status_code := status_code r;
     headers := <[lower k := v]> (headers r);
     body := body r |}.

(** [response.headers.get(k)], also without regard to case. *)
Definition get_header (k : string) (r : Response) : option string :=
  headers r !! lower k.

(** What [health_check] returns; the [timestamp] and [version] entries of
    the payload are left out. *)
Record HealthReport : Type := {
  hr_status : string;
  hr_service : string;
  hr_components : list (string * string);
  hr_error : option string;
}.

(** ** ASGI scopes and messages *)

(** The entries of an ASGI [scope] that the middleware reads or writes.  An
    entry that may be missing is an [option]; [client] may also be present
    and [None].  Header names and values are byte strings.  The application
    gets the scope and leaves these entries as they are. *)
Record Scope : Type := {
  scope_type : string;
  scope_method : option string;
  scope_path : option string;
  scope_client : option (option (string * Z));
  scope_headers : option (list (string * string));
  scope_correlation_id : option string;
}.

(** [scope["correlation_id"] = correlation_id] *)
Definition scope_set_correlation_id (correlation_id : string) (scope : Scope) : Scope :=
  {| scope_type := scope_type scope;
     scope_method := scope_method scope;
     scope_path := scope_path scope;
     scope_client := scope_client scope;
     scope_headers := scope_headers scope;
     scope_correlation_id := Some correlation_id |}.

(** An ASGI message: its [type] and the rest of it. *)
Record Message : Type := {
  message_type : string;
  message_rest : gmap string string;
}.

Definition KeyError (key : string) : exn := Exn "KeyError" ("'" +:+ key +:+ "'").

Definition TypeError_subscript : exn :=
  Exn "TypeError" "'NoneType' object is not subscriptable".

(** [scope[key]] on an entry that may be missing. *)
Definition subscript (entry : option string) (key : string) : M string :=
  match entry with
  | Some v => mret v
  | None => raise (KeyError key)
  end.

(** [dict(pairs)]: a later pair replaces an earlier one with the same key. *)
Definition dict_of_pairs (pairs : list (string * string)) : gmap string string :=
  list_to_map (reverse pairs).

(** [scope.get("client", ("unknown", 0))[0]] *)
Definition client_host (scope : Scope) : M string :=
  match scope_client scope with
  | None => mret "unknown"
  | Some None => raise TypeError_subscript
  | Some (Some (host, _)) => mret host
  end.

(** * data-store/observability.py *)

Module DataStore.

Section middleware.
(** [bytes.decode()], which raises on bytes that are not UTF-8. *)
Variable decode : string → result string.
(** The type of the ASGI [receive] callable, which is only passed on. *)
Context {Receive : Type}.

(** The [custom_send] closure of [ObservabilityMiddleware.__call__], over
    the scope, the id of the request and the original [send]. *)
Definition custom_send (scope : Scope) (correlation_id : string)
    (send : Message → M unit) (message : Message) : M unit :=
  (if String.eqb (message_type message) "http.response.start" then
     client_ip ← client_host scope;
     let headers := dict_of_pairs (default [] (scope_headers scope)) in
     user_agent ← lift_result (decode (default "" (headers !! "user-agent")));
     method ← subscript (scope_method scope) "method";
     path ← subscript (scope_path scope) "path";
     logger_log INFO "Request started"
       {[ "correlation_id" := VStr correlation_id;
          "method" := VStr method;
          "path" := VStr path;
          "client_ip" := VStr client_ip;
          "user_agent" := VStr user_agent;
          "request_type" := VStr "http_start";
          "service" := VStr "data-store" ]}
   else mret tt);;
  send message.

(** [ObservabilityMiddleware.__call__(scope, receive, send)] around the
    wrapped application [app]; [uuid4] is the identifier that this call
    draws. *)
Definition ObservabilityMiddleware_call (uuid4 : string)
    (app : Scope → Receive → (Message → M unit) → M unit)
    (scope : Scope) (receive : Receive) (send : Message → M unit) : M unit :=
  if String.eqb (scope_type scope) "http" then
    correlation_id ← generate_correlation_id uuid4;
    set_correlation_id correlation_id;;
    let scope := scope_set_correlation_id correlation_id scope in
    app scope receive (custom_send scope correlation_id send)
  else
    app scope receive send.
End middleware.

(** [log_request_metrics(request, response, duration)] *)
Definition log_request_metrics (request : Request) (response : Response)
    (duration : Q) : M unit :=
  correlation_id ← get_correlation_id;
  counter_add "http_requests_total" 1
    {[ "method" := VStr (method request);
       "path" := VStr (path request);
       "status_code" := VStr (pretty (status_code response));
       "correlation_id" := VStr correlation_id;
       "service" := VStr "data-store";
       "service_type" := VStr "database_service" ]};;
  histogram_record "http_request_duration_seconds" duration
    {[ "method" := VStr (method request);
       "path" := VStr (path request);
       "correlation_id" := VStr correlation_id;
       "service" := VStr "data-store";
       "service_type" := VStr "database_service" ]};;
  if bool_decide (400 ≤ status_code response) then
    counter_add "http_errors_total" 1
      {[ "method" := VStr (method request);
         "path" := VStr (path request);
         "status_code" := VStr (pretty (status_code response));
         "correlation_id" := VStr correlation_id;
         "service" := VStr "data-store";
         "service_type" := VStr "database_service";
         "error_category" :=
           VStr (if bool_decide (status_code response < 500) then "4xx" else "5xx") ]}
  else mret tt.

(** [create_span(name, operation, **attributes)] *)
Definition create_span (name operation : string) (attributes : dict) : M nat :=
  correlation_id ← get_correlation_id;
  let span_attributes : dict :=
    attributes ∪
    {[ "correlation_id" := VStr correlation_id;
       "operation" := VStr operation;
       "service" := VStr "data-store";
       "service_type" := VStr "database_service" ]} in
  tracer_start_span name INTERNAL span_attributes.

(** [log_with_context(message, level, **kwargs)] *)
Definition log_with_context (message level : string) (kwargs : dict) : M unit :=
  correlation_id ← get_correlation_id;
  timestamp ← time_time;
  let log_data : dict :=
    kwargs ∪
    {[ "correlation_id" := VStr correlation_id;
       "log_message" := VStr message;
       "service" := VStr "data-store";
       "service_type" := VStr "database_service";
       "timestamp" := VFloat timestamp ]} in
  if String.eqb level "debug" then logger_log DEBUG message log_data
  else if String.eqb level "info" then logger_log INFO message log_data
  else if String.eqb level "warning" then logger_log WARNING message log_data
  else if String.eqb level "error" then logger_log ERROR message log_data
  else if String.eqb level "critical" then logger_log CRITICAL message log_data
  else logger_log INFO message log_data.

(** The object returned by [track_db_operation]: the fields set by
    [__init__], and the variables of the enclosing call that [__exit__]
    reads ([operation] and [table], which equal the fields, and
    [correlation_id]).  The body of the [with] statement gets the tracker to
    read [db_tracker.span]; it does not assign to its fields. *)
Record DBOperationTracker : Type := {
  tr_span : nat;
  tr_operation : string;
  tr_table : string;
  tr_start_time : option Q;
  tr_correlation_id : string;
}.

(** [track_db_operation(operation, table, **attributes)] *)
Definition track_db_operation (operation table : string) (attributes : dict)
    : M DBOperationTracker :=
  correlation_id ← get_correlation_id;
  check_kwargs "create_span" ["table"; "name"; "operation"] attributes;;
  span ← create_span ("db_" +:+ operation) "database_operation"
           (<["table" := VStr table]> attributes);
  mret {| tr_span := span;
          tr_operation := operation;
          tr_table := table;
          tr_start_time := None;
          tr_correlation_id := correlation_id |}.

(** [DBOperationTracker.__enter__] *)
Definition DBOperationTracker_enter (self : DBOperationTracker)
    : M DBOperationTracker :=
  now ← time_time;
  mret {| tr_span := tr_span self;
          tr_operation := tr_operation self;
          tr_table := tr_table self;
          tr_start_time := Some now;
          tr_correlation_id := tr_correlation_id self |}.

Definition TypeError_operand : exn :=
  Exn "TypeError" "unsupported operand type(s) for -: 'float' and 'NoneType'".

(** [DBOperationTracker.__exit__(exc_type, exc_val, exc_tb)]; it returns
    [None], which is false. *)
Definition DBOperationTracker_exit (self : DBOperationTracker)
    (exc : option exn) : M bool :=
  let operation := tr_operation self in
  let table := tr_table self in
  let correlation_id := tr_correlation_id self in
  now ← time_time;
  match tr_start_time self with
  | None => raise TypeError_operand
  | Some start_time =>
      let duration := (now - start_time)%Q in
      counter_add "database_operations_total" 1
        {[ "operation" := VStr operation;
           "table" := VStr table;
           "success" := VBool (bool_decide (exc = None));
           "correlation_id" := VStr correlation_id;
           "service" := VStr "data-store";
           "service_type" := VStr "database_service" ]};;
      histogram_record "database_operation_duration_seconds" duration
        {[ "operation" := VStr operation;
           "table" := VStr table;
           "correlation_id" := VStr correlation_id;
           "service" := VStr "data-store";
           "service_type" := VStr "database_service" ]};;
      span_set_attribute (tr_span self) "duration" (VFloat duration);;
      span_set_attribute (tr_span self) "success" (VBool (bool_decide (exc = None)));;
      span_set_attribute (tr_span self) "table" (VStr table);;
      span_set_attribute (tr_span self) "operation_type" (VStr operation);;
      match exc with
      | Some e =>
          span_set_attribute (tr_span self) "error" (VStr (exn_str e));;
          span_set_attribute (tr_span self) "error_type" (VStr (exn_type e));;
          log_with_context
            ("Database operation failed: " +:+ operation +:+ " on " +:+ table)
            "error"
            {[ "operation" := VStr operation;
               "table" := VStr table;
               "error" := VStr (exn_str e);
               "duration" := VFloat duration ]}
      | None =>
          log_with_context
            ("Database operation completed: " +:+ operation +:+ " on " +:+ table)
            "debug"
            {[ "operation" := VStr operation;
               "table" := VStr table;
               "duration" := VFloat duration ]}
      end;;
      span_end (tr_span self);;
      mret false
  end.

(** [with track_db_operation(operation, table, **attributes) as db_tracker: body] *)
Definition with_track_db_operation {A} (operation table : string)
    (attributes : dict) (body : DBOperationTracker → M A) : M (option A) :=
  with_ (self ← track_db_operation operation table attributes;
         DBOperationTracker_enter self)
        DBOperationTracker_exit body.

(** ** data-store/main.py *)

Section main.
(** [str] on a [float]. *)
Variable float_str : Q → string.

(** The [add_process_time_header] middleware; [call_next] is the rest of
    the handler chain applied to the request. *)
Definition add_process_time_header (request : Request)
    (call_next : Request → M Response) : M Response :=
  start_time ← time_time;
  response ← call_next request;
  now ← time_time;
  let process_time := (now - start_time)%Q in
  let response := set_header "X-Process-Time" (float_str process_time) response in
  log_request_metrics request response process_time;;
  mret response.
End main.

(** The [/health] route.  Its collaborators are given by their outcomes:
    [db_select] is the [SELECT 1] round trip on a session from [get_db()],
    [tables_query] the check that the table exists, and [db_close],
    [tables_close] the [db.close()] after each. *)
Definition health_check (db_select db_close : result unit)
    (tables_query : result bool) (tables_close : result unit) : M HealthReport :=
  start_time ← time_time;
  try_except
    (let db_failed (e : exn) (db_latency : value) : M (string * value) :=
       log_with_context ("Database health check failed: " +:+ exn_str e) "error" ∅;;
       mret ("unhealthy", db_latency) in
     r ← catch (lift_result db_select);
     '(db_status, db_latency) ←
       match r with
       | Raise e => db_failed e (VInt 0)
       | Ok _ =>
           now ← time_time;
           let db_latency := VFloat (now - start_time)%Q in
           r ← catch (lift_result db_close);
           match r with
           | Raise e => db_failed e db_latency
           | Ok _ => mret ("healthy", db_latency)
           end
       end;
     let tables_failed (e : exn) : M string :=
       log_with_context ("Table check failed: " +:+ exn_str e) "error" ∅;;
       mret "unhealthy" in
     r ← catch (lift_result tables_query);
     tables_status ←
       match r with
       | Raise e => tables_failed e
       | Ok table_exists =>
           r ← catch (lift_result tables_close);
           match r with
           | Raise e => tables_failed e
           | Ok _ => mret (if table_exists : bool then "healthy" else "missing_tables")
           end
       end;
     let overall_status := "healthy" in
     let overall_status :=
       if negb (String.eqb db_status "healthy")
          || negb (String.eqb tables_status "healthy")
       then "degraded" else overall_status in
     let overall_status :=
       if String.eqb db_status "unhealthy" then "unhealthy" else overall_status in
     counter_add "health_check_total" 1 {[ "status" := VStr overall_status ]};;
     now ← time_time;
     histogram_record "health_check_duration_seconds" (now - start_time)%Q ∅;;
     log_with_context "Health check completed" "info"
       {[ "overall_status" := VStr overall_status;
          "db_status" := VStr db_status;
          "tables_status" := VStr tables_status;
          "db_latency" := db_latency ]};;
     mret {| hr_status := overall_status;
             hr_service := "data-store";
             hr_components := [("database", db_status); ("tables", tables_status)];
             hr_error := None |})
    (λ e,
     counter_add "health_check_total" 1 {[ "status" := VStr "unhealthy" ]};;
     now ← time_time;
     histogram_record "health_check_duration_seconds" (now - start_time)%Q ∅;;
     log_with_context ("Health check failed: " +:+ exn_str e) "error" ∅;;
     mret {| hr_status := "unhealthy";
             hr_service := "data-store";
             hr_components := [];
             hr_error := Some (exn_str e) |}).

End DataStore.

(** * document-api/observability.py *)

Module DocumentApi.

Section middleware.
(** [bytes.decode()], which raises on bytes that are not UTF-8. *)
Variable decode : string → result string.
(** The type of the ASGI [receive] callable, which is only passed on. *)
Context {Receive : Type}.

(** The [custom_send] closure of [ObservabilityMiddleware.__call__], over
    the scope, the id of the request and the original [send]. *)
Definition custom_send (scope : Scope) (correlation_id : string)
    (send : Message → M unit) (message : Message) : M unit :=
  (if String.eqb (message_type message) "http.response.start" then
     client_ip ← client_host scope;
     let headers := dict_of_pairs (default [] (scope_headers scope)) in
     user_agent ← lift_result (decode (default "" (headers !! "user-agent")));
     method ← subscript (scope_method scope) "method";
     path ← subscript (scope_path scope) "path";
     logger_log INFO "Request started"
       {[ "correlation_id" := VStr correlation_id;
          "method" := VStr method;
          "path" := VStr path;
          "client_ip" := VStr client_ip;
          "user_agent" := VStr user_agent;
          "request_type" := VStr "http_start" ]}
   else mret tt);;
  send message.

(** [ObservabilityMiddleware.__call__(scope, receive, send)] around the
    wrapped application [app]; [uuid4] is the identifier that this call
    draws. *)
Definition ObservabilityMiddleware_call (uuid4 : string)
    (app : Scope → Receive → (Message → M unit) → M unit)
    (scope : Scope) (receive : Receive) (send : Message → M unit) : M unit :=
  if String.eqb (scope_type scope) "http" then
    correlation_id ← generate_correlation_id uuid4;
    set_correlation_id correlation_id;;
    let scope := scope_set_correlation_id correlation_id scope in
    app scope receive (custom_send scope correlation_id send)
  else
    app scope receive send.
End middleware.

(** [log_request_metrics(request, response, duration)] *)
Definition log_request_metrics (request : Request) (response : Response)
    (duration : Q) : M unit :=
  correlation_id ← get_correlation_id;
  counter_add "http_requests_total" 1
    {[ "method" := VStr (method request);
       "path" := VStr (path request);
       "status_code" := VStr (pretty (status_code response));
       "correlation_id" := VStr correlation_id;
       "service" := VStr "document-api" ]};;
  histogram_record "http_request_duration_seconds" duration
    {[ "method" := VStr (method request);
       "path" := VStr (path request);
       "correlation_id" := VStr correlation_id;
       "service" := VStr "document-api" ]};;
  if bool_decide (400 ≤ status_code response) then
    counter_add "http_errors_total" 1
      {[ "method" := VStr (method request);
         "path" := VStr (path request);
         "status_code" := VStr (pretty (status_code response));
         "correlation_id" := VStr correlation_id;
         "service" := VStr "document-api";
         "error_category" :=
           VStr (if bool_decide (status_code response < 500) then "4xx" else "5xx") ]}
  else mret tt.

(** [create_span(name, operation, **attributes)] *)
Definition create_span (name operation : string) (attributes : dict) : M nat :=
  correlation_id ← get_correlation_id;
  let span_attributes : dict :=
    attributes ∪
    {[ "correlation_id" := VStr correlation_id;
       "operation" := VStr operation;
       "service" := VStr "document-api" ]} in
  tracer_start_span name INTERNAL span_attributes.

(** [log_with_context(message, level, **kwargs)] *)
Definition log_with_context (message level : string) (kwargs : dict) : M unit :=
  correlation_id ← get_correlation_id;
  timestamp ← time_time;
  let log_data : dict :=
    kwargs ∪
    {[ "correlation_id" := VStr correlation_id;
       "log_message" := VStr message;
       "service" := VStr "document-api";
       "timestamp" := VFloat timestamp ]} in
  if String.eqb level "debug" then logger_log DEBUG message log_data
  else if String.eqb level "info" then logger_log INFO message log_data
  else if String.eqb level "warning" then logger_log WARNING message log_data
  else if String.eqb level "error" then logger_log ERROR message log_data
  else if String.eqb level "critical" then logger_log CRITICAL message log_data
  else logger_log INFO message log_data.

(** ** document-api/main.py *)

Section main.
(** [str] on a [float]. *)
Variable float_str : Q → string.

(** The [add_process_time_header] middleware; [call_next] is the rest of
    the handler chain applied to the request. *)
Definition add_process_time_header (request : Request)
    (call_next : Request → M Response) : M Response :=
  start_time ← time_time;
  response ← call_next request;
  now ← time_time;
  let process_time := (now - start_time)%Q in
  let response := set_header "X-Process-Time" (float_str process_time) response in
  log_request_metrics request response process_time;;
  mret response.
End main.

(** The [/health] route.  Its collaborators are given by their outcomes:
    [uploads_dir] is [UPLOADS_DIR.exists() and UPLOADS_DIR.is_dir()],
    [settings] is [get_settings()], and [data_store] is the status code of
    the probe of the data store, or what the client raised. *)
Definition health_check (uploads_dir : result bool) (settings : result unit)
    (data_store : result Z) : M HealthReport :=
  start_time ← time_time;
  try_except
    (ok ← lift_result uploads_dir;
     let fs_status := if ok : bool then "healthy" else "unhealthy" in
     lift_result settings;;
     data_store_status ←
       try_except
         (code ← lift_result data_store;
          mret (if bool_decide (code = 200) then "healthy" else "unhealthy"))
         (λ _, mret "unhealthy");
     let overall_status :=
       if String.eqb fs_status "healthy" && String.eqb data_store_status "healthy"
       then "healthy" else "degraded" in
     counter_add "health_check_total" 1 {[ "status" := VStr overall_status ]};;
     now ← time_time;
     histogram_record "health_check_duration_seconds" (now - start_time)%Q ∅;;
     log_with_context "Health check completed" "info"
       {[ "overall_status" := VStr overall_status;
          "fs_status" := VStr fs_status;
          "data_store_status" := VStr data_store_status ]};;
     mret {| hr_status := overall_status;
             hr_service := "document-api";
             hr_components := [("file_system", fs_status);
                               ("data_store", data_store_status)];
             hr_error := None |})
    (λ e,
     counter_add "health_check_total" 1 {[ "status" := VStr "unhealthy" ]};;
     now ← time_time;
     histogram_record "health_check_duration_seconds" (now - start_time)%Q ∅;;
     log_with_context ("Health check failed: " +:+ exn_str e) "error" ∅;;
     mret {| hr_status := "unhealthy";
             hr_service := "document-api";
             hr_components := [];
             hr_error := Some (exn_str e) |}).

End DocumentApi.

(** * Reading a trace *)

(** The calls that a computation adds to the trace of [w]. *)
Definition events_of {A} (m : M A) (w : world) : list event :=
  drop (length (w_trace w)) (w_trace (m w).2).

(** The label set of a metric sample. *)
Definition sample_attributes (e : event) : option dict :=
  match e with
  | CounterAdd _ _ a | HistogramRecord _ _ a => Some a
  | _ => None
  end.

Definition counter_adds (tr : list event) : list (string * Z * dict) :=
  omap (λ e, match e with
             | CounterAdd i x a => Some (i, x, a)
             | _ => None
             end) tr.

Definition histogram_records (tr : list event) : list (string * Q * dict) :=
  omap (λ e, match e with
             | HistogramRecord i x a => Some (i, x, a)
             | _ => None
             end) tr.

Definition logger_calls (tr : list event) : list (Level * string * dict) :=
  omap (λ e, match e with
             | LoggerCall l m x => Some (l, m, x)
             | _ => None
             end) tr.

Definition span_starts (tr : list event) : list (nat * string * dict) :=
  omap (λ e, match e with
             | SpanStart s n _ a => Some (s, n, a)
             | _ => None
             end) tr.

(** How many times [span.end()] is called. *)
Definition span_ends (span : nat) (tr : list event) : nat :=
  length (omap (λ e, match e with
                     | SpanEnd s => if Nat.eqb s span then Some s else None
                     | _ => None
                     end) tr).

(** The attributes given to a span by [set_attribute], later calls last. *)
Definition span_attributes_set (span : nat) (tr : list event) : list (string * value) :=
  omap (λ e, match e with
             | SpanSetAttribute s k v => if Nat.eqb s span then Some (k, v) else None
             | _ => None
             end) tr.

(** * Properties *)

(** ** Worlds and inputs of the examples *)

Definition initial_world : world := World ∅ [] INFO 0 [].

(** A request in flight under the id [abc-123], with the next three clock
    readings. *)
Definition example_world : world :=
  World {[ "correlation_id" := "abc-123" ]} [10#1; 12#1; 13#1]%Q INFO 0 [].

Definition no_such_row : exn := Exn "LookupError" "no such row".

(** A handler chain that fails before it answers. *)
Definition failing_handler : Request → M Response :=
  λ _, raise (Exn "RuntimeError" "database is gone").

Definition get_documents : Request := {| method := "GET"; path := "/documents" |}.

(** ** The correlation id and the tracker *)

(** The id that [get_correlation_id] reads in a context. *)
Definition context_id (c : gmap string string) : string :=
  default "" (c !! "correlation_id").

(** The reading of the spec: the span of a call is named
    [{operation}_{table}]. *)
Definition span_named_operation_table (operation table : string)
    (attributes : dict) (w : world) : Prop :=
  ∃ span a,
    span_starts (events_of (DataStore.track_db_operation operation table attributes) w) =
      [(span, operation +:+ "_" +:+ table, a)].

(** ** The structured logger and the caller's keys *)

(** The level that the chain of comparisons in [log_with_context] selects:
    an unknown name is logged at [INFO]. *)
Definition selected_level (level : string) : Level :=
  if String.eqb level "debug" then DEBUG
  else if String.eqb level "info" then INFO
  else if String.eqb level "warning" then WARNING
  else if String.eqb level "error" then ERROR
  else if String.eqb level "critical" then CRITICAL
  else INFO.

(** What a call of a [log_with_context] does: it makes one logger call, at
    the selected level, and raises exactly when that call raises, which is
    when the logger is enabled for the level and the caller passed a key
    that a [LogRecord] reserves. *)
Definition log_outcome (log_with_context : string → string → dict → M unit) : Prop :=
  ∀ (message level : string) (kwargs : dict) (w : world),
    let run := log_with_context message level kwargs w in
    let lvl := selected_level level in
    let logged :=
      run.1 = Ok tt
      ∧ ∃ extra,
          events_of (log_with_context message level kwargs) w =
            [LoggerCall lvl message extra]
          ∧ kwargs ⊆ extra
          ∧ is_Some (extra !! "correlation_id") in
    match first_reserved kwargs with
    | Some k =>
        if bool_decide (levelno (w_loglevel w) ≤ levelno lvl)
        then run = (Raise (KeyError_overwrite k), set_clock (tl (w_clock w)) w)
        else logged
    | None => logged
    end.

(** The reading of the spec: no call of [log_with_context] raises. *)
Definition never_raises (log_with_context : string → string → dict → M unit) : Prop :=
  ∀ message level kwargs w, ∃ w', log_with_context message level kwargs w = (Ok tt, w').

(** A caller's key that reaches the span of a [create_span]. *)
Definition span_carries (create_span : string → string → dict → M nat)
    (key : string) (v : value) (attributes : dict) : Prop :=
  ∀ (name operation : string) (w : world),
    ∃ span a,
      span_starts (events_of (create_span name operation attributes) w) =
        [(span, name, a)]
      ∧ a !! key = Some v.

(** A caller's key that reaches the record of a [log_with_context], for
    every call that returns. *)
Definition record_carries (log_with_context : string → string → dict → M unit)
    (key : string) (v : value) (kwargs : dict) : Prop :=
  ∀ (message level : string) (w : world),
    (log_with_context message level kwargs w).1 = Ok tt →
    ∃ lvl extra,
      events_of (log_with_context message level kwargs) w =
        [LoggerCall lvl message extra]
      ∧ extra !! key = Some v.

(** ** The process-time middleware *)

(** What the middleware does around the handler chain.  When the chain
    returns a response, the middleware returns it with the
    [X-Process-Time] header set from the two clock readings, status and
    body as they were, after one request counter increment, one duration
    sample and, for a status of 400 or more, one error counter increment.
    When the chain raises, the middleware raises the same exception and
    does nothing else. *)
Definition completion
    (middleware : (Q → string) → Request → (Request → M Response) → M Response)
    : Prop :=
  ∀ (float_str : Q → string) (request : Request)
    (call_next : Request → M Response) (w : world),
    match call_next request (set_clock (tl (w_clock w)) w) with
    | (Ok response, w2) =>
        let process_time := (hd 0 (w_clock w2) - hd 0 (w_clock w))%Q in
        ∃ w3 d labels,
          middleware float_str request call_next w =
            (Ok (set_header "X-Process-Time" (float_str process_time) response), w3)
          ∧ w_trace w3 = (w_trace w2 ++ d)%list
          ∧ histogram_records d =
              [("http_request_duration_seconds", process_time, labels)]
          ∧ fst <$> counter_adds d =
              ("http_requests_total", 1) ::
              (if bool_decide (400 ≤ status_code response)
               then [("http_errors_total", 1)] else [])
    | (Raise e, w2) =>
        middleware float_str request call_next w = (Raise e, w2)
    end.

(** The reading of the spec: the request counter is incremented on every
    exit path of the middleware. *)
Definition completion_on_every_path
    (middleware : Request → (Request → M Response) → M Response) : Prop :=
  ∀ request call_next w,
    ∃ labels,
      ("http_requests_total", 1, labels) ∈
        counter_adds (events_of (middleware request call_next) w).

(** ** Labels of the metric samples *)

(** A sample that names the service and the correlation id among its
    labels. *)
Definition carries_identity (e : event) : Prop :=
  ∀ a, sample_attributes e = Some a →
       is_Some (a !! "service") ∧ is_Some (a !! "correlation_id").

(** A sample labelled with this service and this correlation id. *)
Definition carries (service cid : string) (e : event) : Prop :=
  ∀ a, sample_attributes e = Some a →
       a !! "service" = Some (VStr service)
       ∧ a !! "correlation_id" = Some (VStr cid).

(** A sample with neither label. *)
Definition bare (e : event) : Prop :=
  ∀ a, sample_attributes e = Some a →
       a !! "service" = None ∧ a !! "correlation_id" = None.

(** ** Further properties *)

(** A browser request to the documents listing, as the server reports it. *)
Definition browser_scope : Scope :=
  {| scope_type := "http";
     scope_method := Some "GET";
     scope_path := Some "/documents";
     scope_client := Some (Some ("10.0.0.7", 51234));
     scope_headers := Some [("host", "api.local"); ("user-agent", "curl/8.5")];
     scope_correlation_id := None |}.

(** A scope from a server that knows no client address. *)
Definition socket_scope : Scope :=
  {| scope_type := "http";
     scope_method := Some "GET";
     scope_path := Some "/health";
     scope_client := Some None;
     scope_headers := Some [];
     scope_correlation_id := None |}.

Definition response_start : Message :=
  {| message_type := "http.response.start"; message_rest := {[ "status" := "200" ]} |}.

(** The counter increments of a [log_request_metrics]: the request counter
    alone below 400; from 400 on also the error counter, whose category
    is [4xx] up to 499 and [5xx] for every larger status. *)
Definition classifies
    (log_request_metrics : Request → Response → Q → M unit) : Prop :=
  ∀ (request : Request) (response : Response) (duration : Q) (w : world),
    let adds := counter_adds (events_of (log_request_metrics request response duration) w) in
    let status := status_code response in
    (status < 400 → fst <$> adds = [("http_requests_total", 1)])
    ∧ (400 ≤ status →
       ∃ requests errors,
         adds = [("http_requests_total", 1, requests);
                 ("http_errors_total", 1, errors)]
         ∧ requests !! "status_code" = Some (VStr (pretty status))
         ∧ errors !! "status_code" = Some (VStr (pretty status))
         ∧ errors !! "error_category" =
             Some (VStr (if bool_decide (status ≤ 499) then "4xx" else "5xx"))).

(** The response of a middleware is the response of the handler chain with
    one header written, whatever the case in which its name is looked up
    or was set before. *)
Definition only_adds_header
    (middleware : (Q → string) → Request → (Request → M Response) → M Response)
    : Prop :=
  ∀ (float_str : Q → string) (request : Request)
    (call_next : Request → M Response) (w w2 : world) (response : Response),
    call_next request (set_clock (tl (w_clock w)) w) = (Ok response, w2) →
    ∃ response' w3,
      middleware float_str request call_next w = (Ok response', w3)
      ∧ status_code response' = status_code response
      ∧ body response' = body response
      ∧ (∀ k, lower k ≠ "x-process-time" →
              get_header k response' = get_header k response)
      ∧ (∀ k, lower k = "x-process-time" →
              get_header k response' =
                Some (float_str (hd 0 (w_clock w2) - hd 0 (w_clock w))%Q)).

(** The bytes of the [user-agent] header that [custom_send] decodes. *)
Definition user_agent_bytes (scope : Scope) : string :=
  default "" (dict_of_pairs (default [] (scope_headers scope)) !! "user-agent").

(** A [custom_send] that logs the start of a response and passes every
    message on: for a scope with a method, a path, a client that is not
    [None] and a [user-agent] that decodes, the message reaches [send];
    before that, a message of type [http.response.start], and no other,
    makes one [INFO] record "Request started" with the id of the request,
    the method, the path, the client host ([unknown] without a client) and
    the user agent.  [service] is the [service] field of the record. *)
Definition logs_and_forwards (service : option value)
    (custom_send : (string → result string) → Scope → string →
                   (Message → M unit) → Message → M unit) : Prop :=
  ∀ decode scope correlation_id send message w method path user_agent,
    scope_method scope = Some method →
    scope_path scope = Some path →
    scope_client scope ≠ Some None →
    decode (user_agent_bytes scope) = Ok user_agent →
    if String.eqb (message_type message) "http.response.start" then
      ∃ extra,
        custom_send decode scope correlation_id send message w =
          send message
            (set_trace (w_trace w ++ [LoggerCall INFO "Request started" extra]) w)
        ∧ extra !! "correlation_id" = Some (VStr correlation_id)
        ∧ extra !! "method" = Some (VStr method)
        ∧ extra !! "path" = Some (VStr path)
        ∧ extra !! "client_ip" =
            Some (VStr match scope_client scope with
                       | Some (Some (host, _)) => host
                       | _ => "unknown"
                       end)
        ∧ extra !! "user_agent" = Some (VStr user_agent)
        ∧ extra !! "service" = service
    else
      custom_send decode scope correlation_id send message w = send message w.

(** The ways in which a [custom_send] raises instead of passing the start
    of a response on: a [client] entry that is [None], a [user-agent]
    that does not decode, a scope without [method] or [path].  In each
    the original [send] is not called.  A message of another type never
    meets them. *)
Definition fails_before_send
    (custom_send : (string → result string) → Scope → string →
                   (Message → M unit) → Message → M unit) : Prop :=
  ∀ decode scope correlation_id send message w,
    (message_type message ≠ "http.response.start" →
     custom_send decode scope correlation_id send message w = send message w)
    ∧ (message_type message = "http.response.start" →
       (scope_client scope = Some None →
        custom_send decode scope correlation_id send message w =
          (Raise TypeError_subscript, w))
       ∧ (scope_client scope ≠ Some None →
          ∀ e, decode (user_agent_bytes scope) = Raise e →
               custom_send decode scope correlation_id send message w = (Raise e, w))
       ∧ (scope_client scope ≠ Some None →
          ∀ user_agent, decode (user_agent_bytes scope) = Ok user_agent →
            scope_method scope = None →
            custom_send decode scope correlation_id send message w =
              (Raise (KeyError "method"), w))).

(** A request that passes through a middleware into a handler that logs
    once and then starts its response: the record of the handler and the
    "Request started" record both carry the identifier drawn for this
    request, which is also the id left in the context, whatever id was
    installed before. *)
Definition request_records_carry_id
    (middleware : (string → result string) → string →
                  (Scope → unit → (Message → M unit) → M unit) →
                  Scope → unit → (Message → M unit) → M unit)
    (log_with_context : string → string → dict → M unit) : Prop :=
  ∀ decode uuid4 scope send w message level kwargs start method path user_agent,
    scope_type scope = "http" →
    scope_method scope = Some method →
    scope_path scope = Some path →
    scope_client scope ≠ Some None →
    decode (user_agent_bytes scope) = Ok user_agent →
    message_type start = "http.response.start" →
    first_reserved kwargs = None →
    kwargs !! "correlation_id" = None →
    let app := λ (_ : Scope) (_ : unit) (send' : Message → M unit),
                 log_with_context message level kwargs;; send' start in
    ∃ lvl handler_record start_record w',
      middleware decode uuid4 app scope tt send w = send start w'
      ∧ w_trace w' =
          (w_trace w ++ [LoggerCall lvl message handler_record;
                         LoggerCall INFO "Request started" start_record])%list
      ∧ handler_record !! "correlation_id" = Some (VStr uuid4)
      ∧ start_record !! "correlation_id" = Some (VStr uuid4)
      ∧ context_id (w_context w') = uuid4.

(** ** Exceptions that leave the health routes *)

(** The exception of an outcome that [except Exception] lets through. *)
Definition uncaught {A} (r : result A) : option exn :=
  match r with
  | Raise e => if is_Exception e then None else Some e
  | Ok _ => None
  end.

(** The exception that leaves the [/health] route of the document API:
    the first failure of a collaborator, in the order in which the route
    calls them, when [except Exception] does not catch it. *)
Definition DocumentApi_escaping (uploads_dir : result bool)
    (settings : result unit) (data_store : result Z) : option exn :=
  match uploads_dir with
  | Raise _ => uncaught uploads_dir
  | Ok _ =>
      match settings with
      | Raise _ => uncaught settings
      | Ok _ => uncaught data_store
      end
  end.

(** The exception that leaves the [/health] route of the data store: a
    failure of the database check, else of the table check, when
    [except Exception] does not catch it.  A session is closed only after
    its query returned. *)
Definition DataStore_escaping (db_select db_close : result unit)
    (tables_query : result bool) (tables_close : result unit) : option exn :=
  let db :=
    match db_select with
    | Raise _ => uncaught db_select
    | Ok _ => uncaught db_close
    end in
  let tables :=
    match tables_query with
    | Raise _ => uncaught tables_query
    | Ok _ => uncaught tables_close
    end in
  match db with
  | Some e => Some e
  | None => tables
  end.

(** * Running the code *)

Lemma get_correlation_id_run (w : world) :
  get_correlation_id w = (Ok (context_id (w_context w)), w).
Proof.
  unfold get_correlation_id, ContextVar_get, context_id; simpl.
  by destruct (w_context w !! "correlation_id").
Qed.

Lemma time_time_run (w : world) :
  time_time w = (Ok (hd 0%Q (w_clock w)), set_clock (tl (w_clock w)) w).
Proof. unfold time_time. by destruct w as [? [|??] ???]. Qed.

Lemma logger_log_accepts (level : Level) (msg : string) (extra : dict) (w : world) :
  first_reserved extra = None →
  logger_log level msg extra w =
    (Ok tt, set_trace (w_trace w ++ [LoggerCall level msg extra]) w).
Proof. unfold logger_log, emit. intros ->. by case_bool_decide. Qed.

Lemma events_of_app {A} (m : M A) (w : world) (d : list event) :
  w_trace (m w).2 = (w_trace w ++ d)%list → events_of m w = d.
Proof. unfold events_of. intros ->. apply drop_app_length. Qed.

(** Unfold the monad and the code down to the calls that read the world. *)
Ltac py_unfold :=
  cbv beta iota zeta delta
    [mbind M_bind mret M_ret bind ret raise emit counter_add histogram_record
     span_set_attribute span_end tracer_start_span lift_result try_except
     catch with_ check_kwargs set_trace set_clock set_context set_next_span
     w_trace w_clock w_context w_loglevel w_next_span fst snd
     String.eqb Ascii.eqb Bool.eqb
     set_correlation_id ContextVar_set
     DataStore.log_request_metrics DataStore.create_span
     DataStore.log_with_context DataStore.track_db_operation
     DataStore.DBOperationTracker_enter DataStore.DBOperationTracker_exit
     DataStore.with_track_db_operation DataStore.add_process_time_header
     DataStore.tr_span DataStore.tr_operation DataStore.tr_table
     DataStore.tr_start_time DataStore.tr_correlation_id
     DocumentApi.log_request_metrics DocumentApi.create_span
     DocumentApi.log_with_context DocumentApi.add_process_time_header
     DocumentApi.health_check DataStore.health_check] in *.

Ltac py_run :=
  repeat (py_unfold;
          rewrite ?get_correlation_id_run, ?time_time_run;
          try (rewrite logger_log_accepts by (vm_compute; reflexivity)));
  rewrite <- ?app_assoc; cbn [app].

(** Evaluate the projections of an explicit trace. *)
Ltac trace_facts :=
  unfold counter_adds, histogram_records, logger_calls, span_ends,
    span_attributes_set, span_starts;
  cbn [omap list_omap app length]; rewrite ?Nat.eqb_refl;
  cbn [omap list_omap app length].

(** ** The tracker *)

Section tracker.
Import DataStore.

(** A scope that was entered has its start time, and its span is the one
    that [track_db_operation] started. *)
Lemma track_db_operation_enter_inv operation table attributes w self w1 :
  (self ← track_db_operation operation table attributes;
   DBOperationTracker_enter self) w = (Ok self, w1) →
  self = {| tr_span := w_next_span w;
            tr_operation := operation;
            tr_table := table;
            tr_start_time := Some (hd 0%Q (w_clock w));
            tr_correlation_id := context_id (w_context w) |}
  ∧ w_trace w1 =
      (w_trace w ++
       [SpanStart (w_next_span w) ("db_" +:+ operation) INTERNAL
          (<["table" := VStr table]> attributes ∪
           {[ "correlation_id" := VStr (context_id (w_context w));
              "operation" := VStr "database_operation";
              "service" := VStr "data-store";
              "service_type" := VStr "database_service" ]})])%list.
Proof.
  destruct w as [ctx clock lvl n tr]. py_run.
  destruct (attributes !! "table"); [done|].
  destruct (attributes !! "name"); [done|].
  destruct (attributes !! "operation"); [done|].
  py_run. by intros [= <- <-].
Qed.

(** What [__exit__] does once the start time is set. *)
Lemma DBOperationTracker_exit_run self exc w start_time :
  tr_start_time self = Some start_time →
  let duration := (hd 0%Q (w_clock w) - start_time)%Q in
  let failure :=
    match exc with
    | Some e =>
        [SpanSetAttribute (tr_span self) "error" (VStr (exn_str e));
         SpanSetAttribute (tr_span self) "error_type" (VStr (exn_type e))]
    | None => []
    end in
  let msg :=
    match exc with
    | Some _ => "Database operation failed: "
    | None => "Database operation completed: "
    end +:+ tr_operation self +:+ " on " +:+ tr_table self in
  ∃ extra,
    DBOperationTracker_exit self exc w =
      (Ok false,
       set_clock (tl (tl (w_clock w)))
         (set_trace
            (w_trace w ++
             [CounterAdd "database_operations_total" 1
                {[ "operation" := VStr (tr_operation self);
                   "table" := VStr (tr_table self);
                   "success" := VBool (bool_decide (exc = None));
                   "correlation_id" := VStr (tr_correlation_id self);
                   "service" := VStr "data-store";
                   "service_type" := VStr "database_service" ]};
              HistogramRecord "database_operation_duration_seconds" duration
                {[ "operation" := VStr (tr_operation self);
                   "table" := VStr (tr_table self);
                   "correlation_id" := VStr (tr_correlation_id self);
                   "service" := VStr "data-store";
                   "service_type" := VStr "database_service" ]};
              SpanSetAttribute (tr_span self) "duration" (VFloat duration);
              SpanSetAttribute (tr_span self) "success"
                (VBool (bool_decide (exc = None)));
              SpanSetAttribute (tr_span self) "table" (VStr (tr_table self));
              SpanSetAttribute (tr_span self) "operation_type"
                (VStr (tr_operation self))] ++
             failure ++
             [LoggerCall (match exc with Some _ => ERROR | None => DEBUG end)
                msg extra;
              SpanEnd (tr_span self)]) w))
    ∧ extra !! "correlation_id" = Some (VStr (context_id (w_context w)))
    ∧ extra !! "duration" = Some (VFloat duration)
    ∧ extra !! "error" = VStr ∘ exn_str <$> exc.
Proof.
  intros Hst. destruct self as [sp op tb st cid]. simpl in Hst. subst st.
  destruct w as [ctx clock lvl n tr].
  destruct exc as [e|]; py_run; eexists; (split; [reflexivity|]);
    repeat split; reflexivity.
Qed.

Lemma with_returns {T A} (enter : M T) exit (body : T → M A) w t w1 a w2 b w3 :
  enter w = (Ok t, w1) → body t w1 = (Ok a, w2) → exit t None w2 = (Ok b, w3) →
  with_ enter exit body w = (Ok (Some a), w3).
Proof. unfold with_. by intros -> -> ->. Qed.

Lemma with_propagates {T A} (enter : M T) exit (body : T → M A) w t w1 e w2 w3 :
  enter w = (Ok t, w1) → body t w1 = (Raise e, w2) →
  exit t (Some e) w2 = (Ok false, w3) →
  with_ enter exit body w = (Raise e, w3).
Proof. unfold with_. by intros -> -> ->. Qed.

(** C1: when the body of a [track_db_operation] scope raises, leaving the
    scope adds exactly one counter increment, labelled [success = False],
    sets the [error] and [error_type] attributes of the span from the
    exception, makes exactly one logger call, at level [ERROR], ends the
    span, and the [with] statement raises the same exception. *)
Theorem track_db_operation_failure {A} operation table attributes
    (body : DBOperationTracker → M A) w self w1 e w2 :
  (self ← track_db_operation operation table attributes;
   DBOperationTracker_enter self) w = (Ok self, w1) →
  body self w1 = (Raise e, w2) →
  ∃ w3 d,
    with_track_db_operation operation table attributes body w = (Raise e, w3)
    ∧ w_trace w3 = (w_trace w2 ++ d)%list
    ∧ (∃ labels,
          counter_adds d = [("database_operations_total", 1, labels)]
          ∧ labels !! "success" = Some (VBool false))
    ∧ ("error", VStr (exn_str e)) ∈ span_attributes_set (tr_span self) d
    ∧ ("error_type", VStr (exn_type e)) ∈ span_attributes_set (tr_span self) d
    ∧ (∃ msg extra,
          logger_calls d = [(ERROR, msg, extra)]
          ∧ extra !! "error" = Some (VStr (exn_str e)))
    ∧ span_ends (tr_span self) d = 1%nat
    ∧ last d = Some (SpanEnd (tr_span self)).
Proof.
  intros Henter Hbody.
  destruct (track_db_operation_enter_inv _ _ _ _ _ _ Henter) as [Hself _].
  assert (Hst : tr_start_time self = Some (hd 0%Q (w_clock w))) by by subst self.
  destruct (DBOperationTracker_exit_run self (Some e) w2 _ Hst)
    as (extra & Hexit & _ & _ & Herr).
  eexists _, _. split.
  { unfold with_track_db_operation. eapply with_propagates; eauto. }
  split; [reflexivity|]. trace_facts.
  split; [eexists; split; [reflexivity|reflexivity]|].
  split; [set_solver|]. split; [set_solver|].
  split; [by eexists _, _|]. done.
Qed.

(** C2: however the body of a [track_db_operation] scope ends, leaving the
    scope adds exactly one counter increment, whose [success] label is
    true iff the body did not raise, exactly one duration sample, exactly
    one logger call ([DEBUG] on success, [ERROR] on failure) and exactly
    one [span.end()], with the [success] attribute of the span set
    accordingly; the outcome of the body is the outcome of the scope. *)
Theorem track_db_operation_scope_exit {A} operation table attributes
    (body : DBOperationTracker → M A) w self w1 r w2 :
  (self ← track_db_operation operation table attributes;
   DBOperationTracker_enter self) w = (Ok self, w1) →
  body self w1 = (r, w2) →
  let success := match r with Ok _ => true | Raise _ => false end in
  ∃ w3 d,
    with_track_db_operation operation table attributes body w =
      (match r with Ok a => Ok (Some a) | Raise e => Raise e end, w3)
    ∧ w_trace w3 = (w_trace w2 ++ d)%list
    ∧ (∃ labels,
          counter_adds d = [("database_operations_total", 1, labels)]
          ∧ labels !! "success" = Some (VBool success))
    ∧ (∃ labels,
          histogram_records d =
            [("database_operation_duration_seconds",
              (hd 0 (w_clock w2) - hd 0 (w_clock w))%Q, labels)])
    ∧ (∃ msg extra,
          logger_calls d = [(if success then DEBUG else ERROR, msg, extra)])
    ∧ span_ends (tr_span self) d = 1%nat
    ∧ last d = Some (SpanEnd (tr_span self))
    ∧ ("success", VBool success) ∈ span_attributes_set (tr_span self) d.
Proof.
  intros Henter Hbody success.
  destruct (track_db_operation_enter_inv _ _ _ _ _ _ Henter) as [Hself _].
  assert (Hst : tr_start_time self = Some (hd 0%Q (w_clock w))) by by subst self.
  destruct r as [a|e]; subst success.
  - destruct (DBOperationTracker_exit_run self None w2 _ Hst) as (extra & Hexit & _).
    eexists _, _. split.
    { unfold with_track_db_operation. eapply with_returns; eauto. }
    split; [reflexivity|]. trace_facts.
    split; [eexists; split; reflexivity|].
    split; [by eexists|]. split; [by eexists _, _|].
    split; [done|]. split; [done|]. set_solver.
  - destruct (DBOperationTracker_exit_run self (Some e) w2 _ Hst) as (extra & Hexit & _).
    eexists _, _. split.
    { unfold with_track_db_operation. eapply with_propagates; eauto. }
    split; [reflexivity|]. trace_facts.
    split; [eexists; split; reflexivity|].
    split; [by eexists|]. split; [by eexists _, _|].
    split; [done|]. split; [done|]. set_solver.
Qed.

Lemma track_db_operation_failure_witness :
  ∃ w3,
    with_track_db_operation (A := unit) "select" "documentmetadata" ∅
      (λ _, raise no_such_row) example_world = (Raise no_such_row, w3).
Proof.
  edestruct (track_db_operation_failure (A := unit) "select" "documentmetadata" ∅
               (λ _, raise no_such_row) example_world) as (w3 & d & Hrun & _).
  - vm_compute. reflexivity.
  - reflexivity.
  - exists w3. exact Hrun.
Defined.

Lemma track_db_operation_scope_exit_witness :
  ∃ w3,
    with_track_db_operation "insert" "documentmetadata" ∅
      (λ _, mret 7%Z) example_world = (Ok (Some 7%Z), w3).
Proof.
  edestruct (track_db_operation_scope_exit "insert" "documentmetadata" ∅
               (λ _, mret 7%Z) example_world) as (w3 & d & Hrun & _).
  - vm_compute. reflexivity.
  - reflexivity.
  - exists w3. exact Hrun.
Defined.

(** A call that returns found no clash among the keyword arguments, and
    started the span of the tracker. *)
Lemma track_db_operation_inv operation table attributes w self w' :
  track_db_operation operation table attributes w = (Ok self, w') →
  attributes !! "operation" = None
  ∧ self = {| tr_span := w_next_span w;
              tr_operation := operation;
              tr_table := table;
              tr_start_time := None;
              tr_correlation_id := context_id (w_context w) |}
  ∧ w_trace w' =
      (w_trace w ++
       [SpanStart (w_next_span w) ("db_" +:+ operation) INTERNAL
          (<["table" := VStr table]> attributes ∪
           {[ "correlation_id" := VStr (context_id (w_context w));
              "operation" := VStr "database_operation";
              "service" := VStr "data-store";
              "service_type" := VStr "database_service" ]})])%list.
Proof.
  destruct w as [ctx clock lvl n tr]. py_run.
  destruct (attributes !! "table"); [done|].
  destruct (attributes !! "name"); [done|].
  destruct (attributes !! "operation"); [done|].
  py_run. by intros [= <- <-].
Qed.

Lemma track_db_operation_span_name_counterexample :
  ¬ span_named_operation_table "insert" "documentmetadata" ∅ initial_world.
Proof.
  intros (span & a & H). vm_compute in H. discriminate H.
Qed.

(** C3, as the code has it: a call [track_db_operation(operation, table,
    **attributes)] that returns has started exactly one span, named
    [db_{operation}]; the table is not part of the name but the [table]
    attribute of the span, and the span's [operation] attribute is the
    constant [database_operation]. *)
Theorem track_db_operation_span_name operation table attributes w self w' :
  track_db_operation operation table attributes w = (Ok self, w') →
  ∃ a,
    span_starts (events_of (track_db_operation operation table attributes) w) =
      [(tr_span self, "db_" +:+ operation, a)]
    ∧ a !! "table" = Some (VStr table)
    ∧ a !! "operation" = Some (VStr "database_operation")
    ∧ tr_operation self = operation
    ∧ tr_table self = table.
Proof.
  intros Hrun.
  destruct (track_db_operation_inv _ _ _ _ _ _ Hrun) as (Hop & -> & Htrace).
  eexists. split; [|split; [|split; [|done]]].
  - erewrite events_of_app by (rewrite Hrun; exact Htrace).
    trace_facts. reflexivity.
  - apply lookup_union_Some_l, lookup_insert_eq.
  - rewrite lookup_union_r by by rewrite lookup_insert_ne.
    reflexivity.
Qed.

Lemma track_db_operation_span_name_witness :
  ∃ a,
    span_starts
      (events_of (track_db_operation "insert" "documentmetadata" ∅) initial_world) =
      [(0%nat, "db_insert", a)]
    ∧ a !! "table" = Some (VStr "documentmetadata").
Proof.
  edestruct (track_db_operation_span_name "insert" "documentmetadata" ∅
               initial_world) as (a & Hname & Htable & _).
  - vm_compute. reflexivity.
  - exists a. split; [exact Hname | exact Htable].
Defined.
End tracker.

(** ** The correlation id *)

(** C6: a correlation id installed with [set_correlation_id] is what the
    next [get_correlation_id] returns, for any id and from any state, and
    in a context where none was installed [get_correlation_id] returns the
    empty string and does not raise. *)
Theorem correlation_id_round_trip :
  (∀ (corr_id : string) (w : world),
     ((set_correlation_id corr_id;; get_correlation_id) w).1 = Ok corr_id)
  ∧ (∀ w : world,
       w_context w !! "correlation_id" = None →
       get_correlation_id w = (Ok "", w)).
Proof.
  split.
  - intros corr_id [ctx clock lvl n tr]. py_run.
    unfold context_id. cbn. by rewrite lookup_insert_eq.
  - intros w Hnone. rewrite get_correlation_id_run.
    unfold context_id. by rewrite Hnone.
Qed.

Lemma correlation_id_round_trip_witness :
  ((set_correlation_id "abc-123";; get_correlation_id) initial_world).1 = Ok "abc-123"
  ∧ get_correlation_id initial_world = (Ok "", initial_world).
Proof.
  destruct correlation_id_round_trip as [Hset Hget].
  split; [apply Hset | apply Hget; reflexivity].
Defined.

(** ** Keyword arguments against the built-in fields *)

(** The built-in keys of a log record are not attributes of a
    [LogRecord], so only the caller's keys can be refused. *)
Lemma find_reserved_union (kw d : dict) (l : list string) :
  (∀ k, k ∈ l → d !! k = None) →
  List.find (λ k, bool_decide (is_Some ((kw ∪ d) !! k))) l =
  List.find (λ k, bool_decide (is_Some (kw !! k))) l.
Proof.
  induction l as [|k l IH]; intros Hd; [done|]. cbn [List.find].
  assert ((kw ∪ d) !! k = kw !! k) as ->.
  { rewrite lookup_union, (Hd k) by left.
    by destruct (kw !! k). }
  rewrite IH; [done|]. intros k' Hk'. apply Hd. by right.
Qed.

Lemma first_reserved_union (kw d : dict) :
  first_reserved d = None → first_reserved (kw ∪ d) = first_reserved kw.
Proof.
  intros Hd. apply find_reserved_union. intros k Hk.
  apply list_elem_of_In in Hk.
  pose proof (List.find_none _ _ Hd k Hk) as Hnone. cbn beta in Hnone.
  apply bool_decide_eq_false in Hnone.
  by apply eq_None_not_Some.
Qed.

Lemma DataStore_log_with_context_run message level kwargs w :
  DataStore.log_with_context message level kwargs w =
    logger_log (selected_level level) message
      (kwargs ∪
       {[ "correlation_id" := VStr (context_id (w_context w));
          "log_message" := VStr message;
          "service" := VStr "data-store";
          "service_type" := VStr "database_service";
          "timestamp" := VFloat (hd 0%Q (w_clock w)) ]})
      (set_clock (tl (w_clock w)) w).
Proof.
  unfold DataStore.log_with_context, selected_level.
  unfold mbind, M_bind, bind. rewrite get_correlation_id_run, time_time_run.
  by repeat case_match.
Qed.

Lemma DocumentApi_log_with_context_run message level kwargs w :
  DocumentApi.log_with_context message level kwargs w =
    logger_log (selected_level level) message
      (kwargs ∪
       {[ "correlation_id" := VStr (context_id (w_context w));
          "log_message" := VStr message;
          "service" := VStr "document-api";
          "timestamp" := VFloat (hd 0%Q (w_clock w)) ]})
      (set_clock (tl (w_clock w)) w).
Proof.
  unfold DocumentApi.log_with_context, selected_level.
  unfold mbind, M_bind, bind. rewrite get_correlation_id_run, time_time_run.
  by repeat case_match.
Qed.

(** ** The structured logger *)

Ltac log_outcome_tac run_lemma :=
  intros message level kwargs w; cbv zeta; unfold events_of;
  rewrite run_lemma; unfold logger_log, emit;
  rewrite first_reserved_union by (vm_compute; reflexivity);
  destruct w as [ctx clock lvl n tr]; cbn [w_loglevel set_clock w_trace];
  destruct (first_reserved kwargs) as [k|]; try case_bool_decide; try done;
  (split; [done|]); eexists; cbn [snd w_trace set_trace];
  (split; [by rewrite drop_app_length|]);
  (split; [apply map_union_subseteq_l|]);
  rewrite lookup_union, lookup_insert_eq; by destruct (kwargs !! _).

Lemma DataStore_log_outcome : log_outcome DataStore.log_with_context.
Proof. log_outcome_tac DataStore_log_with_context_run. Qed.

Lemma DocumentApi_log_outcome : log_outcome DocumentApi.log_with_context.
Proof. log_outcome_tac DocumentApi_log_with_context_run. Qed.

Lemma log_with_context_raises_counterexample :
  ¬ never_raises DocumentApi.log_with_context
  ∧ ¬ never_raises DataStore.log_with_context.
Proof.
  split; intros H;
    destruct (H "File stored" "info" {[ "filename" := VStr "report.txt" ]}
                initial_world) as [w' Hrun];
    vm_compute in Hrun; discriminate Hrun.
Qed.

(** C5, as the code has it: [log_with_context] has no handler of its own.
    In both services a call makes exactly one logger call, at the level
    named by [level] ([INFO] for an unknown name), and returns when that
    call returns; when the caller passes a key that [LogRecord] reserves
    and the logger is enabled for the level, the [KeyError] of the logger
    propagates to the caller and nothing is logged. *)
Theorem log_with_context_outcome :
  log_outcome DocumentApi.log_with_context
  ∧ log_outcome DataStore.log_with_context.
Proof. split; [apply DocumentApi_log_outcome | apply DataStore_log_outcome]. Qed.

(** ** Caller-supplied keys *)

Lemma DataStore_create_span_run name operation attributes w :
  DataStore.create_span name operation attributes w =
    (Ok (w_next_span w),
     set_trace
       (w_trace w ++
        [SpanStart (w_next_span w) name INTERNAL
           (attributes ∪
            {[ "correlation_id" := VStr (context_id (w_context w));
               "operation" := VStr operation;
               "service" := VStr "data-store";
               "service_type" := VStr "database_service" ]})])
       (set_next_span (S (w_next_span w)) w)).
Proof. destruct w. by py_run. Qed.

Lemma DocumentApi_create_span_run name operation attributes w :
  DocumentApi.create_span name operation attributes w =
    (Ok (w_next_span w),
     set_trace
       (w_trace w ++
        [SpanStart (w_next_span w) name INTERNAL
           (attributes ∪
            {[ "correlation_id" := VStr (context_id (w_context w));
               "operation" := VStr operation;
               "service" := VStr "document-api" ]})])
       (set_next_span (S (w_next_span w)) w)).
Proof. destruct w. by py_run. Qed.

Lemma record_carries_of_outcome log_with_context key v kwargs :
  log_outcome log_with_context →
  kwargs !! key = Some v →
  record_carries log_with_context key v kwargs.
Proof.
  intros Hout Hkey message level w Hok.
  specialize (Hout message level kwargs w). cbv zeta in Hout.
  assert (Hlogged :
    (log_with_context message level kwargs w).1 = Ok tt
    ∧ ∃ extra,
        events_of (log_with_context message level kwargs) w =
          [LoggerCall (selected_level level) message extra]
        ∧ kwargs ⊆ extra ∧ is_Some (extra !! "correlation_id")).
  { destruct (first_reserved kwargs); [|done].
    case_bool_decide; [|done]. rewrite Hout in Hok. discriminate Hok. }
  destruct Hlogged as (_ & extra & Hev & Hsub & _).
  exists (selected_level level), extra. split; [done|].
  by eapply lookup_weaken.
Qed.

(** C10: the caller's keyword arguments win over the built-in fields.  For
    every key, so for [correlation_id] and [service], that the caller
    passes, the attributes of the span started by [create_span] and the
    record that [log_with_context] hands to the logger hold the caller's
    value, in both services, whatever the active correlation id is. *)
Theorem caller_keys_override (key : string) (v : value) (kwargs : dict) :
  kwargs !! key = Some v →
  span_carries DocumentApi.create_span key v kwargs
  ∧ span_carries DataStore.create_span key v kwargs
  ∧ record_carries DocumentApi.log_with_context key v kwargs
  ∧ record_carries DataStore.log_with_context key v kwargs.
Proof.
  intros Hkey. repeat split.
  - intros name operation w. eexists _, _.
    erewrite events_of_app by (rewrite DocumentApi_create_span_run; reflexivity).
    trace_facts. split; [reflexivity|]. by apply lookup_union_Some_l.
  - intros name operation w. eexists _, _.
    erewrite events_of_app by (rewrite DataStore_create_span_run; reflexivity).
    trace_facts. split; [reflexivity|]. by apply lookup_union_Some_l.
  - by apply record_carries_of_outcome, Hkey; apply DocumentApi_log_outcome.
  - by apply record_carries_of_outcome, Hkey; apply DataStore_log_outcome.
Qed.

Lemma caller_keys_override_witness :
  ∃ span a,
    span_starts
      (events_of (DataStore.create_span "create_document" "document_creation"
                    {[ "correlation_id" := VStr "forged" ]}) example_world) =
      [(span, "create_document", a)]
    ∧ a !! "correlation_id" = Some (VStr "forged").
Proof.
  destruct (caller_keys_override "correlation_id" (VStr "forged")
              {[ "correlation_id" := VStr "forged" ]}) as (_ & Hspan & _).
  - reflexivity.
  - apply Hspan.
Defined.

(** ** Request metrics *)

Lemma DataStore_log_request_metrics_run request response duration w :
  let cid := VStr (context_id (w_context w)) in
  DataStore.log_request_metrics request response duration w =
    (Ok tt,
     set_trace
       (w_trace w ++
        [CounterAdd "http_requests_total" 1
           {[ "method" := VStr (method request);
              "path" := VStr (path request);
              "status_code" := VStr (pretty (status_code response));
              "correlation_id" := cid;
              "service" := VStr "data-store";
              "service_type" := VStr "database_service" ]};
         HistogramRecord "http_request_duration_seconds" duration
           {[ "method" := VStr (method request);
              "path" := VStr (path request);
              "correlation_id" := cid;
              "service" := VStr "data-store";
              "service_type" := VStr "database_service" ]}] ++
        if bool_decide (400 ≤ status_code response) then
          [CounterAdd "http_errors_total" 1
             {[ "method" := VStr (method request);
                "path" := VStr (path request);
                "status_code" := VStr (pretty (status_code response));
                "correlation_id" := cid;
                "service" := VStr "data-store";
                "service_type" := VStr "database_service";
                "error_category" :=
                  VStr (if bool_decide (status_code response < 500)
                        then "4xx" else "5xx") ]}]
        else []) w).
Proof.
  destruct w. py_run. by case_bool_decide; py_run.
Qed.

Lemma DocumentApi_log_request_metrics_run request response duration w :
  let cid := VStr (context_id (w_context w)) in
  DocumentApi.log_request_metrics request response duration w =
    (Ok tt,
     set_trace
       (w_trace w ++
        [CounterAdd "http_requests_total" 1
           {[ "method" := VStr (method request);
              "path" := VStr (path request);
              "status_code" := VStr (pretty (status_code response));
              "correlation_id" := cid;
              "service" := VStr "document-api" ]};
         HistogramRecord "http_request_duration_seconds" duration
           {[ "method" := VStr (method request);
              "path" := VStr (path request);
              "correlation_id" := cid;
              "service" := VStr "document-api" ]}] ++
        if bool_decide (400 ≤ status_code response) then
          [CounterAdd "http_errors_total" 1
             {[ "method" := VStr (method request);
                "path" := VStr (path request);
                "status_code" := VStr (pretty (status_code response));
                "correlation_id" := cid;
                "service" := VStr "document-api";
                "error_category" :=
                  VStr (if bool_decide (status_code response < 500)
                        then "4xx" else "5xx") ]}]
        else []) w).
Proof.
  destruct w. py_run. by case_bool_decide; py_run.
Qed.

(** ** The process-time middleware *)

Lemma add_process_time_header_counterexample :
  ¬ completion_on_every_path (DocumentApi.add_process_time_header (λ _, "0.0"))
  ∧ ¬ completion_on_every_path (DataStore.add_process_time_header (λ _, "0.0")).
Proof.
  split; intros H;
    destruct (H get_documents failing_handler example_world) as [labels Hin];
    vm_compute in Hin; by apply elem_of_nil in Hin.
Qed.

(** C4, as the code has it: in both services the completion step of the
    middleware (request counter, duration sample, error counter for a
    status of 400 or more, and the [X-Process-Time] header) runs whenever
    the handler chain returns a response, error responses included; when the
    chain raises, the exception leaves the middleware as it came and no
    metric is recorded for the request. *)
Theorem add_process_time_header_completion :
  completion DocumentApi.add_process_time_header
  ∧ completion DataStore.add_process_time_header.
Proof.
  split; intros float_str request call_next w.
  - unfold DocumentApi.add_process_time_header, mbind, M_bind, bind.
    rewrite time_time_run.
    destruct (call_next request _) as [[response|e] w2]; [|done].
    rewrite time_time_run, DocumentApi_log_request_metrics_run. cbv zeta.
    eexists _, _, _. split; [reflexivity|].
    destruct w2 as [ctx clock lvl n tr]. cbn [w_trace set_trace set_clock].
    split; [reflexivity|]. cbn [status_code set_header].
    by case_bool_decide.
  - unfold DataStore.add_process_time_header, mbind, M_bind, bind.
    rewrite time_time_run.
    destruct (call_next request _) as [[response|e] w2]; [|done].
    rewrite time_time_run, DataStore_log_request_metrics_run. cbv zeta.
    eexists _, _, _. split; [reflexivity|].
    destruct w2 as [ctx clock lvl n tr]. cbn [w_trace set_trace set_clock].
    split; [reflexivity|]. cbn [status_code set_header].
    by case_bool_decide.
Qed.

(** ** Labels of the metric samples *)

Ltac samples :=
  repeat (apply Forall_cons; split; [intros a [= <-]; by split|]);
  try done.

Lemma DocumentApi_request_samples request response duration w :
  Forall (carries "document-api" (context_id (w_context w)))
    (events_of (DocumentApi.log_request_metrics request response duration) w).
Proof.
  erewrite events_of_app
    by (rewrite DocumentApi_log_request_metrics_run; reflexivity).
  case_bool_decide; cbn [app]; samples.
Qed.

Lemma DataStore_request_samples request response duration w :
  Forall (carries "data-store" (context_id (w_context w)))
    (events_of (DataStore.log_request_metrics request response duration) w).
Proof.
  erewrite events_of_app
    by (rewrite DataStore_log_request_metrics_run; reflexivity).
  case_bool_decide; cbn [app]; samples.
Qed.

Lemma DBOperationTracker_exit_samples self exc w :
  Forall (carries "data-store" (DataStore.tr_correlation_id self))
    (events_of (DataStore.DBOperationTracker_exit self exc) w).
Proof.
  destruct (DataStore.tr_start_time self) as [start_time|] eqn:Hst.
  - destruct (DBOperationTracker_exit_run self exc w _ Hst) as (extra & Hrun & _).
    erewrite events_of_app by (rewrite Hrun; destruct w; reflexivity).
    destruct exc; cbn [app]; samples;
      repeat (apply Forall_cons; split; [by intros a [=]|]); done.
  - unfold events_of, DataStore.DBOperationTracker_exit, mbind, M_bind, bind.
    rewrite time_time_run, Hst. destruct w as [ctx clock lvl n tr].
    cbn. by rewrite drop_all.
Qed.

(** Decide, for each exception at hand, whether [except Exception] catches
    it, and run the code on. *)
Ltac exc_run :=
  repeat (py_run;
          repeat match goal with
                 | H : is_Exception _ = _ |- _ => rewrite H
                 end).

(** What the [/health] route of the document API does, for every outcome
    of its collaborators. *)
Lemma DocumentApi_health_check_run uploads_dir settings data_store w :
  let probe_ok :=
    match data_store with
    | Ok code => bool_decide (code = 200)
    | Raise _ => false
    end in
  match DocumentApi_escaping uploads_dir settings data_store with
  | Some e =>
      DocumentApi.health_check uploads_dir settings data_store w =
        (Raise e, set_clock (tl (w_clock w)) w)
  | None =>
      ∃ report w' lvl msg extra,
        DocumentApi.health_check uploads_dir settings data_store w = (Ok report, w')
        ∧ w_trace w' =
            (w_trace w ++
             [CounterAdd "health_check_total" 1
                {[ "status" := VStr (hr_status report) ]};
              HistogramRecord "health_check_duration_seconds"
                (hd 0 (tl (w_clock w)) - hd 0 (w_clock w))%Q ∅;
              LoggerCall lvl msg extra])%list
        ∧ hr_status report =
            match uploads_dir, settings with
            | Ok fs, Ok _ => if fs && probe_ok then "healthy" else "degraded"
            | _, _ => "unhealthy"
            end
  end.
Proof.
  cbv zeta. unfold DocumentApi_escaping, uncaught.
  destruct w as [ctx clock lvl n tr].
  destruct uploads_dir as [[]|e1];
    [destruct settings as [[]|e2];
       [destruct data_store as [code|e3]; [|destruct (is_Exception e3) eqn:?]
       |destruct (is_Exception e2) eqn:?]..
    |destruct (is_Exception e1) eqn:?];
    exc_run; try case_bool_decide; exc_run; try reflexivity;
    eexists _, _, _, _, _; (split; [reflexivity|]); split; reflexivity.
Qed.

Ltac bare_samples :=
  repeat (apply Forall_cons; split;
          [by intros ? [= <-] || by intros ? [=]|]);
  try done.

(** What the [/health] route of the data store does, for every outcome of
    the database. *)
Lemma DataStore_health_check_run db_select db_close tables_query tables_close w :
  let ev :=
    events_of (DataStore.health_check db_select db_close tables_query tables_close) w in
  let db_ok :=
    match db_select, db_close with
    | Ok _, Ok _ => true
    | _, _ => false
    end in
  let tables_raised :=
    match tables_query, tables_close with
    | Ok _, Ok _ => false
    | _, _ => true
    end in
  let tables_ok :=
    match tables_query with
    | Ok table_exists => table_exists && negb tables_raised
    | Raise _ => false
    end in
  Forall bare ev
  ∧ match DataStore_escaping db_select db_close tables_query tables_close with
    | Some e =>
        (DataStore.health_check db_select db_close tables_query tables_close w).1 =
          Raise e
        ∧ counter_adds ev = []
        ∧ histogram_records ev = []
    | None =>
        ∃ report duration,
          (DataStore.health_check db_select db_close tables_query tables_close w).1 =
            Ok report
          ∧ counter_adds ev =
              [("health_check_total", 1, {[ "status" := VStr (hr_status report) ]})]
          ∧ histogram_records ev = [("health_check_duration_seconds", duration, ∅)]
          ∧ length (logger_calls ev) =
              ((if db_ok then 0 else 1) + (if tables_raised then 1 else 0) + 1)%nat
          ∧ hr_status report =
              if db_ok then (if tables_ok then "healthy" else "degraded")
              else "unhealthy"
    end.
Proof.
  cbv zeta. unfold DataStore_escaping, uncaught, events_of.
  destruct w as [ctx clock lvl n tr].
  destruct db_select as [[]|e1];
    [destruct db_close as [[]|e2]; [|destruct (is_Exception e2) eqn:?]
    |destruct (is_Exception e1) eqn:?];
    (destruct tables_query as [[]|e3];
       [destruct tables_close as [[]|e4]; [|destruct (is_Exception e4) eqn:?]..
       |destruct (is_Exception e3) eqn:?]);
    exc_run; cbn [fst snd w_trace];
    rewrite ?drop_app_length, ?drop_all; trace_facts;
    (split; [bare_samples|]);
    try (repeat split; reflexivity);
    eexists _, _; repeat split; reflexivity.
Qed.

Lemma health_check_samples uploads_dir settings data_store w :
  Forall bare
    (events_of (DocumentApi.health_check uploads_dir settings data_store) w).
Proof.
  pose proof (DocumentApi_health_check_run uploads_dir settings data_store w) as Hrun.
  cbv zeta in Hrun. unfold events_of.
  destruct (DocumentApi_escaping _ _ _) as [e|].
  - rewrite Hrun. destruct w; cbn. by rewrite drop_all.
  - destruct Hrun as (report & w' & lvl & msg & extra & Hrun & Htrace & _).
    rewrite Hrun. cbn [snd]. rewrite Htrace, drop_app_length. bare_samples.
Qed.

Lemma DataStore_health_check_samples db_select db_close tables_query tables_close w :
  Forall bare
    (events_of (DataStore.health_check db_select db_close tables_query tables_close) w).
Proof. apply DataStore_health_check_run. Qed.

Lemma health_check_samples_counterexample :
  ¬ Forall carries_identity
      (events_of (DocumentApi.health_check (Ok true) (Ok tt) (Ok 200))
         example_world).
Proof.
  intros H. apply Forall_lookup_1 with (i := 0%nat) (x :=
    CounterAdd "health_check_total" 1 {[ "status" := VStr "healthy" ]}) in H;
    [|vm_compute; reflexivity].
  destruct (H _ eq_refl) as [[v Hv] _]. vm_compute in Hv. discriminate Hv.
Qed.

(** C7, as the code has it: every sample of the request counter, the
    request duration histogram and the error counter, in both services,
    and of the database operation counter and histogram, is labelled with
    the service and with a correlation id (the one read when the metrics
    are logged, or when [track_db_operation] was called).  The samples
    that the [/health] routes record on the health-check counter and
    histogram carry neither label. *)
Theorem metric_samples_identity :
  (∀ request response duration w,
     Forall (carries "document-api" (context_id (w_context w)))
       (events_of (DocumentApi.log_request_metrics request response duration) w))
  ∧ (∀ request response duration w,
       Forall (carries "data-store" (context_id (w_context w)))
         (events_of (DataStore.log_request_metrics request response duration) w))
  ∧ (∀ self exc w,
       Forall (carries "data-store" (DataStore.tr_correlation_id self))
         (events_of (DataStore.DBOperationTracker_exit self exc) w))
  ∧ (∀ uploads_dir settings data_store w,
       Forall bare
         (events_of (DocumentApi.health_check uploads_dir settings data_store) w))
  ∧ (∀ db_select db_close tables_query tables_close w,
       Forall bare
         (events_of
            (DataStore.health_check db_select db_close tables_query tables_close) w)).
Proof.
  split; [exact DocumentApi_request_samples|].
  split; [exact DataStore_request_samples|].
  split; [exact DBOperationTracker_exit_samples|].
  split; [exact health_check_samples|].
  exact DataStore_health_check_samples.
Qed.

(** The header on the responses that pass through the middleware: its
    value is [str] of the difference of the two clock readings, and the
    status and the body are those of the handler chain. *)
Lemma process_time_header middleware (float_str : Q → string) (request : Request)
    (call_next : Request → M Response) (w w2 : world) (response : Response) :
  completion middleware →
  call_next request (set_clock (tl (w_clock w)) w) = (Ok response, w2) →
  ∃ response' w3,
    middleware float_str request call_next w = (Ok response', w3)
    ∧ get_header "X-Process-Time" response' =
        Some (float_str (hd 0 (w_clock w2) - hd 0 (w_clock w))%Q)
    ∧ status_code response' = status_code response
    ∧ body response' = body response.
Proof.
  intros Hcompletion Hnext.
  pose proof (Hcompletion float_str request call_next w) as H.
  rewrite Hnext in H. destruct H as (w3 & d & labels & Hrun & _).
  eexists _, w3. split; [exact Hrun|].
  unfold get_header, set_header. cbn [headers status_code body].
  by rewrite lookup_insert_eq.
Qed.

(** * Further properties of the code *)

(** ** Classification of responses by [log_request_metrics] *)

(** X1: [log_request_metrics], in both services, counts a response as an
    error exactly from status 400 on, as [4xx] for 400 to 499 and as [5xx]
    for any status from 500 up; a response below 400 increments the
    request counter only. *)
Theorem log_request_metrics_classifies :
  classifies DocumentApi.log_request_metrics
  ∧ classifies DataStore.log_request_metrics.
Proof.
  split; intros request response duration w; cbv zeta.
  - erewrite events_of_app
      by (rewrite DocumentApi_log_request_metrics_run; reflexivity).
    split; intros Hstatus.
    + rewrite bool_decide_false by lia. reflexivity.
    + rewrite (bool_decide_true (400 ≤ _)) by done. cbn [app]. trace_facts.
      eexists _, _. split; [reflexivity|]. repeat split; try reflexivity.
      destruct (decide (status_code response ≤ 499)).
      * rewrite !bool_decide_true by lia. reflexivity.
      * rewrite !bool_decide_false by lia. reflexivity.
  - erewrite events_of_app
      by (rewrite DataStore_log_request_metrics_run; reflexivity).
    split; intros Hstatus.
    + rewrite bool_decide_false by lia. reflexivity.
    + rewrite (bool_decide_true (400 ≤ _)) by done. cbn [app]. trace_facts.
      eexists _, _. split; [reflexivity|]. repeat split; try reflexivity.
      destruct (decide (status_code response ≤ 499)).
      * rewrite !bool_decide_true by lia. reflexivity.
      * rewrite !bool_decide_false by lia. reflexivity.
Qed.

Lemma log_request_metrics_classifies_witness :
  ∃ requests errors,
    counter_adds
      (events_of
         (DataStore.log_request_metrics get_documents
            {| status_code := 503; headers := ∅; body := "" |} (1#2)) example_world) =
      [("http_requests_total", 1, requests); ("http_errors_total", 1, errors)]
    ∧ errors !! "error_category" = Some (VStr "5xx").
Proof.
  destruct log_request_metrics_classifies as [_ H].
  destruct (H get_documents {| status_code := 503; headers := ∅; body := "" |}
              (1#2)%Q example_world) as [_ Herr].
  destruct Herr as (requests & errors & Hadds & _ & _ & Hcat); [cbn; lia|].
  exists requests, errors. split; [exact Hadds | exact Hcat].
Defined.

(** ** Telemetry outside a request *)

(** X2: where no correlation id was installed, nothing fails and nothing
    is left out, in both services (for a caller that passes no
    [correlation_id] key of its own and no key that a [LogRecord]
    reserves): [create_span] returns its span, started with the empty
    string as correlation id; [log_with_context] returns after one logger
    call whose record has the empty string as correlation id;
    [log_request_metrics] returns after it recorded the request counter
    increment and the duration sample, and all its samples are labelled
    with the service and with the empty string as correlation id. *)
Theorem telemetry_without_correlation_id (w : world) (name operation : string)
    (message level : string) (kwargs : dict)
    (request : Request) (response : Response) (duration : Q) :
  w_context w !! "correlation_id" = None →
  kwargs !! "correlation_id" = None →
  first_reserved kwargs = None →
  (∃ span a,
      (DocumentApi.create_span name operation kwargs w).1 = Ok span
      ∧ span_starts (events_of (DocumentApi.create_span name operation kwargs) w) =
          [(span, name, a)]
      ∧ a !! "correlation_id" = Some (VStr ""))
  ∧ (∃ span a,
        (DataStore.create_span name operation kwargs w).1 = Ok span
        ∧ span_starts (events_of (DataStore.create_span name operation kwargs) w) =
            [(span, name, a)]
        ∧ a !! "correlation_id" = Some (VStr ""))
  ∧ (∃ lvl extra,
        (DocumentApi.log_with_context message level kwargs w).1 = Ok tt
        ∧ events_of (DocumentApi.log_with_context message level kwargs) w =
            [LoggerCall lvl message extra]
        ∧ extra !! "correlation_id" = Some (VStr ""))
  ∧ (∃ lvl extra,
        (DataStore.log_with_context message level kwargs w).1 = Ok tt
        ∧ events_of (DataStore.log_with_context message level kwargs) w =
            [LoggerCall lvl message extra]
        ∧ extra !! "correlation_id" = Some (VStr ""))
  ∧ (let ev := events_of (DocumentApi.log_request_metrics request response duration) w in
     (DocumentApi.log_request_metrics request response duration w).1 = Ok tt
     ∧ (∃ requests durations,
           ("http_requests_total", 1, requests) ∈ counter_adds ev
           ∧ histogram_records ev =
               [("http_request_duration_seconds", duration, durations)]
           ∧ requests !! "correlation_id" = Some (VStr "")
           ∧ durations !! "correlation_id" = Some (VStr ""))
     ∧ Forall (carries "document-api" "") ev)
  ∧ (let ev := events_of (DataStore.log_request_metrics request response duration) w in
     (DataStore.log_request_metrics request response duration w).1 = Ok tt
     ∧ (∃ requests durations,
           ("http_requests_total", 1, requests) ∈ counter_adds ev
           ∧ histogram_records ev =
               [("http_request_duration_seconds", duration, durations)]
           ∧ requests !! "correlation_id" = Some (VStr "")
           ∧ durations !! "correlation_id" = Some (VStr ""))
     ∧ Forall (carries "data-store" "") ev).
Proof.
  intros Hctx Hkw Hres.
  assert (Hid : context_id (w_context w) = "") by (unfold context_id; by rewrite Hctx).
  assert (Hlog : ∀ lvl (d : dict),
            first_reserved d = None →
            d !! "correlation_id" = Some (VStr "") →
            (logger_log lvl message (kwargs ∪ d) (set_clock (tl (w_clock w)) w)).1 =
              Ok tt
            ∧ drop (length (w_trace w))
                (w_trace (logger_log lvl message (kwargs ∪ d)
                            (set_clock (tl (w_clock w)) w)).2) =
                [LoggerCall lvl message (kwargs ∪ d)]
            ∧ (kwargs ∪ d) !! "correlation_id" = Some (VStr "")).
  { intros lvl d Hd Hcid.
    rewrite logger_log_accepts by by rewrite first_reserved_union.
    split; [reflexivity|]. split.
    - destruct w; cbn. apply drop_app_length.
    - by rewrite lookup_union_r. }
  pose proof (DocumentApi_request_samples request response duration w) as Hdoc.
  pose proof (DataStore_request_samples request response duration w) as Hdata.
  rewrite Hid in Hdoc, Hdata.
  split; [|split; [|split; [|split; [|split]]]].
  - eexists _, _. rewrite DocumentApi_create_span_run.
    split; [reflexivity|].
    erewrite events_of_app by (rewrite DocumentApi_create_span_run; reflexivity).
    trace_facts. split; [reflexivity|]. rewrite lookup_union_r, Hid; done.
  - eexists _, _. rewrite DataStore_create_span_run.
    split; [reflexivity|].
    erewrite events_of_app by (rewrite DataStore_create_span_run; reflexivity).
    trace_facts. split; [reflexivity|]. rewrite lookup_union_r, Hid; done.
  - eexists _, _. unfold events_of.
    rewrite DocumentApi_log_with_context_run, Hid.
    apply (Hlog _ _); [by vm_compute | done].
  - eexists _, _. unfold events_of.
    rewrite DataStore_log_with_context_run, Hid.
    apply (Hlog _ _); [by vm_compute | done].
  - cbv zeta. split; [by rewrite DocumentApi_log_request_metrics_run|].
    split; [|exact Hdoc].
    erewrite events_of_app
      by (rewrite DocumentApi_log_request_metrics_run; reflexivity).
    rewrite Hid. eexists _, _.
    case_bool_decide; cbn [app]; trace_facts;
      (split; [apply list_elem_of_here|]); (split; [reflexivity|]); by split.
  - cbv zeta. split; [by rewrite DataStore_log_request_metrics_run|].
    split; [|exact Hdata].
    erewrite events_of_app
      by (rewrite DataStore_log_request_metrics_run; reflexivity).
    rewrite Hid. eexists _, _.
    case_bool_decide; cbn [app]; trace_facts;
      (split; [apply list_elem_of_here|]); (split; [reflexivity|]); by split.
Qed.

Lemma telemetry_without_correlation_id_witness :
  (∃ span a,
      (DataStore.create_span "create_document" "document_creation" ∅
         initial_world).1 = Ok span
      ∧ span_starts
          (events_of (DataStore.create_span "create_document" "document_creation" ∅)
             initial_world) = [(span, "create_document", a)]
      ∧ a !! "correlation_id" = Some (VStr ""))
  ∧ (DataStore.log_request_metrics get_documents
       {| status_code := 200; headers := ∅; body := "" |} (1#2) initial_world).1 =
      Ok tt
  ∧ ∃ requests durations,
      ("http_requests_total", 1, requests) ∈
        counter_adds
          (events_of (DataStore.log_request_metrics get_documents
                        {| status_code := 200; headers := ∅; body := "" |} (1#2))
             initial_world)
      ∧ histogram_records
          (events_of (DataStore.log_request_metrics get_documents
                        {| status_code := 200; headers := ∅; body := "" |} (1#2))
             initial_world) =
          [("http_request_duration_seconds", (1#2)%Q, durations)]
      ∧ requests !! "correlation_id" = Some (VStr "")
      ∧ durations !! "correlation_id" = Some (VStr "").
Proof.
  destruct (telemetry_without_correlation_id initial_world "create_document"
              "document_creation" "Started" "info" ∅ get_documents
              {| status_code := 200; headers := ∅; body := "" |} (1#2)%Q)
    as (_ & Hspan & _ & _ & _ & Hok & Hsamples & _);
    [reflexivity | reflexivity | reflexivity |].
  split; [exact Hspan|]. split; [exact Hok | exact Hsamples].
Defined.

(** ** Levels of [log_with_context] *)

(** X3: [log_with_context] compares the level name as it is written: each
    of the five lower-case names selects its own level, and any other name,
    an upper-case [ERROR] included, is logged at [INFO] instead of being
    refused. *)
Theorem log_with_context_level (message level : string) (kwargs : dict) (w : world) :
  first_reserved kwargs = None →
  let expected :=
    if bool_decide (level = "debug") then DEBUG
    else if bool_decide (level = "warning") then WARNING
    else if bool_decide (level = "error") then ERROR
    else if bool_decide (level = "critical") then CRITICAL
    else INFO in
  logger_calls (events_of (DocumentApi.log_with_context message level kwargs) w) =
    [(expected, message,
      kwargs ∪ {[ "correlation_id" := VStr (context_id (w_context w));
                  "log_message" := VStr message;
                  "service" := VStr "document-api";
                  "timestamp" := VFloat (hd 0%Q (w_clock w)) ]})]
  ∧ logger_calls (events_of (DataStore.log_with_context message level kwargs) w) =
      [(expected, message,
        kwargs ∪ {[ "correlation_id" := VStr (context_id (w_context w));
                    "log_message" := VStr message;
                    "service" := VStr "data-store";
                    "service_type" := VStr "database_service";
                    "timestamp" := VFloat (hd 0%Q (w_clock w)) ]})].
Proof.
  intros Hres expected.
  assert (Hlevel : selected_level level = expected).
  { unfold selected_level, expected.
    destruct (String.eqb_spec level "debug") as [->|?]; [done|].
    rewrite (bool_decide_false (level = "debug")) by done.
    destruct (String.eqb_spec level "info") as [->|?]; [done|].
    destruct (String.eqb_spec level "warning") as [->|?]; [done|].
    rewrite (bool_decide_false (level = "warning")) by done.
    destruct (String.eqb_spec level "error") as [->|?]; [done|].
    rewrite (bool_decide_false (level = "error")) by done.
    destruct (String.eqb_spec level "critical") as [->|?]; [done|].
    by rewrite (bool_decide_false (level = "critical")). }
  unfold events_of.
  rewrite DocumentApi_log_with_context_run, DataStore_log_with_context_run, Hlevel.
  rewrite !logger_log_accepts
    by (rewrite first_reserved_union; [done | by vm_compute]).
  destruct w; cbn [snd w_trace set_trace set_clock].
  rewrite !drop_app_length. done.
Qed.

Lemma log_with_context_level_witness :
  ∃ extra,
    logger_calls
      (events_of (DataStore.log_with_context "Disk is full" "ERROR" ∅) example_world) =
      [(INFO, "Disk is full", extra)].
Proof.
  destruct (log_with_context_level "Disk is full" "ERROR" ∅ example_world)
    as [_ Hdata]; [reflexivity|].
  eexists. exact Hdata.
Defined.

(** ** The ids of a tracked operation *)

(** X4: the metric samples of a tracked operation carry the correlation id
    that was active when [track_db_operation] was called, while the log
    record made on exit carries the id that is active when the scope is
    left; a body that installs another id makes the two differ. *)
Theorem tracker_correlation_ids {A} operation table attributes
    (body : DataStore.DBOperationTracker → M A) w self w1 r w2 :
  (self ← DataStore.track_db_operation operation table attributes;
   DataStore.DBOperationTracker_enter self) w = (Ok self, w1) →
  body self w1 = (r, w2) →
  ∃ w3 d,
    (DataStore.with_track_db_operation operation table attributes body w).2 = w3
    ∧ w_trace w3 = (w_trace w2 ++ d)%list
    ∧ Forall (carries "data-store" (context_id (w_context w))) d
    ∧ ∃ lvl msg extra,
        logger_calls d = [(lvl, msg, extra)]
        ∧ extra !! "correlation_id" = Some (VStr (context_id (w_context w2))).
Proof.
  intros Henter Hbody.
  destruct (track_db_operation_enter_inv _ _ _ _ _ _ Henter) as [Hself _].
  assert (Hst : DataStore.tr_start_time self = Some (hd 0%Q (w_clock w)))
    by by subst self.
  assert (Hid : DataStore.tr_correlation_id self = context_id (w_context w))
    by by subst self.
  destruct r as [res|e].
  - destruct (DBOperationTracker_exit_run self None w2 _ Hst)
      as (extra & Hexit & Hcid & _).
    eexists _, _. split.
    { unfold DataStore.with_track_db_operation, with_.
      rewrite Henter, Hbody, Hexit. reflexivity. }
    split; [by destruct w2|]. split.
    + rewrite <- Hid. cbn [app]. samples;
        repeat (apply Forall_cons; split; [by intros ? [=]|]); done.
    + by eexists _, _, extra.
  - destruct (DBOperationTracker_exit_run self (Some e) w2 _ Hst)
      as (extra & Hexit & Hcid & _).
    eexists _, _. split.
    { unfold DataStore.with_track_db_operation, with_.
      rewrite Henter, Hbody, Hexit. reflexivity. }
    split; [by destruct w2|]. split.
    + rewrite <- Hid. cbn [app]. samples;
        repeat (apply Forall_cons; split; [by intros ? [=]|]); done.
    + by eexists _, _, extra.
Qed.

Lemma tracker_correlation_ids_witness :
  ∃ d,
    Forall (carries "data-store" "abc-123") d
    ∧ ∃ lvl msg extra,
        logger_calls d = [(lvl, msg, extra)]
        ∧ extra !! "correlation_id" = Some (VStr "other").
Proof.
  edestruct (tracker_correlation_ids "insert" "documentmetadata" ∅
               (λ _, set_correlation_id "other") example_world)
    as (w3 & d & _ & _ & Hmetrics & Hlog).
  - vm_compute. reflexivity.
  - reflexivity.
  - exists d. split; [exact Hmetrics | exact Hlog].
Defined.

(** ** Keyword arguments of [track_db_operation] *)

(** X5: an attribute called [name] cannot be passed to
    [track_db_operation]: the call that creates the span raises
    [TypeError], the body of the [with] statement does not run, and no
    span, metric or log is produced. *)
Theorem track_db_operation_rejects_name {A} operation table attributes
    (body : DataStore.DBOperationTracker → M A) w :
  is_Some (attributes !! "name") →
  ∃ e,
    exn_type e = "TypeError"
    ∧ DataStore.with_track_db_operation operation table attributes body w =
        (Raise e, w).
Proof.
  intros [v Hname]. destruct w as [ctx clock lvl n tr].
  unfold DataStore.with_track_db_operation. py_run.
  destruct (attributes !! "table").
  - eexists. split; [|reflexivity]. reflexivity.
  - rewrite Hname. eexists. split; [|reflexivity]. reflexivity.
Qed.

Lemma track_db_operation_rejects_name_witness :
  ∃ e,
    exn_type e = "TypeError"
    ∧ DataStore.with_track_db_operation "insert" "documentmetadata"
        {[ "name" := VStr "report.txt" ]} (λ _, mret 7%Z) example_world =
        (Raise e, example_world).
Proof.
  apply (track_db_operation_rejects_name "insert" "documentmetadata"
           {[ "name" := VStr "report.txt" ]} (λ _, mret 7%Z) example_world).
  eexists. reflexivity.
Defined.

(** ** What the process-time middleware changes *)

(** X6: in both services the process-time middleware hands back the
    response of the handler chain with its status, its body and every
    other header untouched; it writes [X-Process-Time] only, replacing a
    value that the handler may have set.  Header names are matched
    without regard to case, as the framework matches them: the header is
    read back under its name in any case, and it is the headers whose
    lower-cased name is not [x-process-time] that stay as they were. *)
Theorem add_process_time_header_only_adds_header :
  only_adds_header DocumentApi.add_process_time_header
  ∧ only_adds_header DataStore.add_process_time_header.
Proof.
  split; intros float_str request call_next w w2 response Hnext.
  - unfold DocumentApi.add_process_time_header, mbind, M_bind, bind.
    rewrite time_time_run, Hnext, time_time_run,
      DocumentApi_log_request_metrics_run.
    eexists _, _. split; [reflexivity|].
    unfold get_header, set_header. cbn [headers status_code body].
    split; [reflexivity|]. split; [reflexivity|]. split.
    + intros k Hk. by rewrite lookup_insert_ne.
    + intros k ->. apply lookup_insert_eq.
  - unfold DataStore.add_process_time_header, mbind, M_bind, bind.
    rewrite time_time_run, Hnext, time_time_run,
      DataStore_log_request_metrics_run.
    eexists _, _. split; [reflexivity|].
    unfold get_header, set_header. cbn [headers status_code body].
    split; [reflexivity|]. split; [reflexivity|]. split.
    + intros k Hk. by rewrite lookup_insert_ne.
    + intros k ->. apply lookup_insert_eq.
Qed.

Lemma add_process_time_header_only_adds_header_witness :
  ∃ response' w3,
    DataStore.add_process_time_header (λ _, "2.0") get_documents
      (λ _, mret {| status_code := 404;
                    headers := {[ "x-process-time" := "stale";
                                  "content-type" := "application/json" ]};
                    body := "not found" |}) example_world = (Ok response', w3)
    ∧ status_code response' = 404
    ∧ get_header "Content-Type" response' = Some "application/json"
    ∧ get_header "X-Process-Time" response' = Some "2.0"
    ∧ get_header "x-process-time" response' = Some "2.0".
Proof.
  destruct add_process_time_header_only_adds_header as [_ H].
  edestruct (H (λ _, "2.0") get_documents
               (λ _, mret {| status_code := 404;
                             headers := {[ "x-process-time" := "stale";
                                           "content-type" := "application/json" ]};
                             body := "not found" |}) example_world)
    as (response' & w3 & Hrun & Hstatus & _ & Hother & Htime); [reflexivity|].
  exists response', w3. split; [exact Hrun|]. split; [exact Hstatus|].
  split; [|split; apply Htime; reflexivity].
  rewrite Hother; [reflexivity | discriminate].
Defined.

(** ** The health routes *)

(** X7: the [/health] route of the document API raises only what
    [except Exception] does not catch: when the directory check,
    [get_settings] or the call to the data store raises an exception that
    is not an [Exception] (a cancellation, a keyboard interrupt), the
    route raises it and records nothing.  In every other case it returns
    a report and records exactly one health-check counter increment,
    labelled with the status that it returns, one duration sample and one
    log record.  The status is then [healthy] only when the upload
    directory is there and the data store answers 200; a data store that
    answers otherwise or cannot be reached makes it [degraded], and only
    a failure of the directory check or of [get_settings] makes it
    [unhealthy]. *)
Theorem DocumentApi_health_check_report uploads_dir settings data_store w :
  let ev := events_of (DocumentApi.health_check uploads_dir settings data_store) w in
  let probe_ok :=
    match data_store with
    | Ok code => bool_decide (code = 200)
    | Raise _ => false
    end in
  match DocumentApi_escaping uploads_dir settings data_store with
  | Some e =>
      (DocumentApi.health_check uploads_dir settings data_store w).1 = Raise e
      ∧ ev = []
  | None =>
      ∃ report w',
        DocumentApi.health_check uploads_dir settings data_store w = (Ok report, w')
        ∧ counter_adds ev =
            [("health_check_total", 1, {[ "status" := VStr (hr_status report) ]})]
        ∧ histogram_records ev =
            [("health_check_duration_seconds",
              (hd 0 (tl (w_clock w)) - hd 0 (w_clock w))%Q, ∅)]
        ∧ length (logger_calls ev) = 1%nat
        ∧ hr_status report =
            match uploads_dir, settings with
            | Ok fs, Ok _ => if fs && probe_ok then "healthy" else "degraded"
            | _, _ => "unhealthy"
            end
  end.
Proof.
  cbv zeta.
  pose proof (DocumentApi_health_check_run uploads_dir settings data_store w) as Hrun.
  cbv zeta in Hrun. unfold events_of.
  destruct (DocumentApi_escaping _ _ _) as [e|].
  - rewrite Hrun. split; [reflexivity|]. destruct w; cbn. by rewrite drop_all.
  - destruct Hrun as (report & w' & lvl & msg & extra & Hrun & Htrace & Hstatus).
    exists report, w'. rewrite Hrun. split; [reflexivity|].
    cbn [snd]. rewrite Htrace, drop_app_length. trace_facts.
    repeat split; [reflexivity.. | exact Hstatus].
Qed.

(** A cancellation while the data store is asked leaves the route of the
    document API as it came, and no health-check sample is recorded. *)
Example DocumentApi_health_check_cancelled :
  DocumentApi.health_check (Ok true) (Ok tt) (Raise (Exn "CancelledError" ""))
    example_world =
    (Raise (Exn "CancelledError" ""), set_clock [12#1; 13#1]%Q example_world).
Proof. reflexivity. Qed.

(** X8: the [/health] route of the data store raises only what
    [except Exception] does not catch: when a query or the closing of a
    session raises an exception that is not an [Exception], the route
    raises it and records no health-check sample.  In every other case it
    returns a report and records exactly one health-check counter
    increment, labelled with the status that it returns, and one duration
    sample.  The status is then [unhealthy] exactly when the database
    check fails, in the query or in closing the session after it;
    otherwise it is [healthy] when the table check finds the table and
    closes its session, and [degraded] when it does not.  Each failed
    check adds one log record to the record of completion. *)
Theorem DataStore_health_check_report db_select db_close tables_query tables_close w :
  let ev :=
    events_of (DataStore.health_check db_select db_close tables_query tables_close) w in
  let db_ok :=
    match db_select, db_close with
    | Ok _, Ok _ => true
    | _, _ => false
    end in
  let tables_raised :=
    match tables_query, tables_close with
    | Ok _, Ok _ => false
    | _, _ => true
    end in
  let tables_ok :=
    match tables_query with
    | Ok table_exists => table_exists && negb tables_raised
    | Raise _ => false
    end in
  match DataStore_escaping db_select db_close tables_query tables_close with
  | Some e =>
      (DataStore.health_check db_select db_close tables_query tables_close w).1 =
        Raise e
      ∧ counter_adds ev = []
      ∧ histogram_records ev = []
  | None =>
      ∃ report duration,
        (DataStore.health_check db_select db_close tables_query tables_close w).1 =
          Ok report
        ∧ counter_adds ev =
            [("health_check_total", 1, {[ "status" := VStr (hr_status report) ]})]
        ∧ histogram_records ev = [("health_check_duration_seconds", duration, ∅)]
        ∧ length (logger_calls ev) =
            ((if db_ok then 0 else 1) + (if tables_raised then 1 else 0) + 1)%nat
        ∧ hr_status report =
            if db_ok then (if tables_ok then "healthy" else "degraded")
            else "unhealthy"
  end.
Proof.
  apply (DataStore_health_check_run db_select db_close tables_query tables_close w).
Qed.

(** An interrupt while the table check runs, after a database check that
    failed and was logged: the route of the data store raises it, and the
    failed check stays without a health-check sample. *)
Example DataStore_health_check_interrupted :
  let run :=
    DataStore.health_check (Raise (Exn "OperationalError" "connection refused"))
      (Ok tt) (Raise (Exn "KeyboardInterrupt" "")) (Ok tt) in
  (run example_world).1 = Raise (Exn "KeyboardInterrupt" "")
  ∧ counter_adds (events_of run example_world) = []
  ∧ length (logger_calls (events_of run example_world)) = 1%nat.
Proof. by vm_compute. Qed.

(** ** The correlation context is only written by the middleware *)

Lemma logger_log_context level msg extra w :
  w_context (logger_log level msg extra w).2 = w_context w.
Proof.
  unfold logger_log, emit. destruct w.
  by repeat (case_bool_decide || case_match).
Qed.

(** X9: the instrumentation reads the active correlation id and never
    writes it: after [create_span], [log_with_context] (whether it raises
    or not), [log_request_metrics], [track_db_operation] and the exit of a
    tracked operation, the context holds what it held before. *)
Theorem instrumentation_keeps_context (w : world) :
  (∀ name operation attributes,
     w_context (DocumentApi.create_span name operation attributes w).2 = w_context w
     ∧ w_context (DataStore.create_span name operation attributes w).2 = w_context w)
  ∧ (∀ message level kwargs,
       w_context (DocumentApi.log_with_context message level kwargs w).2 = w_context w
       ∧ w_context (DataStore.log_with_context message level kwargs w).2 = w_context w)
  ∧ (∀ request response duration,
       w_context (DocumentApi.log_request_metrics request response duration w).2
         = w_context w
       ∧ w_context (DataStore.log_request_metrics request response duration w).2
           = w_context w)
  ∧ (∀ operation table attributes,
       w_context (DataStore.track_db_operation operation table attributes w).2
         = w_context w)
  ∧ (∀ self exc,
       w_context (DataStore.DBOperationTracker_exit self exc w).2 = w_context w).
Proof.
  repeat split.
  - rewrite DocumentApi_create_span_run. destruct w; reflexivity.
  - rewrite DataStore_create_span_run. destruct w; reflexivity.
  - rewrite DocumentApi_log_with_context_run, logger_log_context. destruct w; reflexivity.
  - rewrite DataStore_log_with_context_run, logger_log_context. destruct w; reflexivity.
  - rewrite DocumentApi_log_request_metrics_run. destruct w; reflexivity.
  - rewrite DataStore_log_request_metrics_run. destruct w; reflexivity.
  - intros operation table attributes.
    destruct w as [ctx clock lvl n tr]. py_run.
    destruct (attributes !! "table"); [reflexivity|].
    destruct (attributes !! "name"); [reflexivity|].
    destruct (attributes !! "operation"); [reflexivity|].
    py_run. reflexivity.
  - intros self exc.
    destruct (DataStore.tr_start_time self) as [start_time|] eqn:Hst.
    + destruct (DBOperationTracker_exit_run self exc w _ Hst) as (extra & -> & _).
      destruct w; reflexivity.
    + unfold DataStore.DBOperationTracker_exit, mbind, M_bind, bind.
      rewrite time_time_run, Hst. destruct w; reflexivity.
Qed.

(** ** The request-start log of [custom_send] *)

Ltac asgi_unfold :=
  unfold DocumentApi.custom_send, DataStore.custom_send, client_host, subscript,
    user_agent_bytes in *.

Lemma DocumentApi_logs_and_forwards :
  logs_and_forwards None (@DocumentApi.custom_send).
Proof.
  intros decode scope cid send message w method path ua Hm Hp Hc Hua.
  asgi_unfold. rewrite Hm, Hp, Hua.
  destruct (String.eqb _ _); destruct w as [ctx clock lvl n tr];
    [|py_run; reflexivity].
  destruct (scope_client scope) as [[[host port]|]|]; [|done|];
    py_run; eexists; (split; [reflexivity|]); done.
Qed.

Lemma DataStore_logs_and_forwards :
  logs_and_forwards (Some (VStr "data-store")) (@DataStore.custom_send).
Proof.
  intros decode scope cid send message w method path ua Hm Hp Hc Hua.
  asgi_unfold. rewrite Hm, Hp, Hua.
  destruct (String.eqb _ _); destruct w as [ctx clock lvl n tr];
    [|py_run; reflexivity].
  destruct (scope_client scope) as [[[host port]|]|]; [|done|];
    py_run; eexists; (split; [reflexivity|]); done.
Qed.

(** X10: in both services [custom_send] passes every message on to the
    original [send], and logs "Request started" once, with the id, method,
    path, client host and user agent of the request, exactly for the
    message that starts the response; the record of the data store names
    its service and that of the document API has no [service] field. *)
Theorem custom_send_logs_and_forwards :
  logs_and_forwards None (@DocumentApi.custom_send)
  ∧ logs_and_forwards (Some (VStr "data-store")) (@DataStore.custom_send).
Proof.
  split; [exact DocumentApi_logs_and_forwards | exact DataStore_logs_and_forwards].
Qed.

Lemma custom_send_logs_and_forwards_witness :
  ∃ extra,
    DataStore.custom_send Ok browser_scope "abc-123" (λ _, mret tt) response_start
      initial_world =
      (Ok tt, set_trace [LoggerCall INFO "Request started" extra] initial_world)
    ∧ extra !! "client_ip" = Some (VStr "10.0.0.7")
    ∧ extra !! "user_agent" = Some (VStr "curl/8.5").
Proof.
  destruct custom_send_logs_and_forwards as [_ H].
  specialize (H Ok browser_scope "abc-123" (λ _, mret tt) response_start
                initial_world "GET" "/documents" "curl/8.5").
  destruct H as (extra & Hrun & _ & _ & _ & Hip & Hua & _);
    [reflexivity | reflexivity | discriminate | reflexivity |].
  exists extra. split; [exact Hrun|]. split; [exact Hip | exact Hua].
Defined.

(** ** Where [custom_send] fails *)

(** X11: [custom_send] can fail only on the message that starts the
    response, and then before the message is passed on: with a scope
    whose [client] is [None] it raises [TypeError], with a [user-agent]
    header that is not valid UTF-8 it raises what [decode] raises, and
    with a scope that has no [method] it raises [KeyError]; every other
    message goes to the original [send] whatever the scope holds. *)
Theorem custom_send_fails_before_send :
  fails_before_send (@DocumentApi.custom_send)
  ∧ fails_before_send (@DataStore.custom_send).
Proof.
  split; intros decode scope cid send message w; asgi_unfold;
    (split; [intros Hty; apply String.eqb_neq in Hty; rewrite Hty; by py_run|]);
    intros ->; cbn [String.eqb Ascii.eqb Bool.eqb]; repeat split.
  - intros ->. by py_run.
  - intros Hc e ->.
    destruct (scope_client scope) as [[[host port]|]|]; [|done|]; by py_run.
  - intros Hc ua -> ->.
    destruct (scope_client scope) as [[[host port]|]|]; [|done|]; by py_run.
  - intros ->. by py_run.
  - intros Hc e ->.
    destruct (scope_client scope) as [[[host port]|]|]; [|done|]; by py_run.
  - intros Hc ua -> ->.
    destruct (scope_client scope) as [[[host port]|]|]; [|done|]; by py_run.
Qed.

Lemma custom_send_fails_before_send_witness :
  DataStore.custom_send Ok socket_scope "abc-123" (λ _, mret tt) response_start
    example_world = (Raise TypeError_subscript, example_world).
Proof.
  destruct custom_send_fails_before_send as [_ H].
  destruct (H Ok socket_scope "abc-123" (λ _, mret tt) response_start example_world)
    as [_ Hstart].
  destruct (Hstart eq_refl) as [Hclient _].
  exact (Hclient eq_refl).
Defined.

(** ** The id of a request, end to end *)

Lemma context_id_insert (uuid4 : string) (c : gmap string string) :
  context_id (<["correlation_id" := uuid4]> c) = uuid4.
Proof. unfold context_id. by rewrite lookup_insert_eq. Qed.

(** X12: in both services an HTTP request that goes through
    [ObservabilityMiddleware] into a handler that calls [log_with_context]
    and then starts the response yields two log records, the handler's and
    "Request started", and both carry the id generated for this request,
    not an id that was installed before it arrived. *)
Theorem request_records_carry_request_id :
  request_records_carry_id
    (λ decode, DocumentApi.ObservabilityMiddleware_call decode)
    DocumentApi.log_with_context
  ∧ request_records_carry_id
      (λ decode, DataStore.ObservabilityMiddleware_call decode)
      DataStore.log_with_context.
Proof.
  split;
    intros decode uuid4 scope send w message level kwargs start method path ua
      Hty Hm Hp Hc Hua Hstart Hres Hkw app; subst app;
    destruct w as [ctx clock lvl n tr].
  - unfold DocumentApi.ObservabilityMiddleware_call, generate_correlation_id,
      set_correlation_id, ContextVar_set, mbind, M_bind, mret, M_ret, bind, ret.
    rewrite Hty. cbn [String.eqb Ascii.eqb Bool.eqb correlation_id cv_name].
    rewrite DocumentApi_log_with_context_run.
    rewrite logger_log_accepts by (rewrite first_reserved_union; [done | by vm_compute]).
    pose proof (DocumentApi_logs_and_forwards decode
                  (scope_set_correlation_id uuid4 scope) uuid4 send start) as Hsend.
    match goal with |- context [DocumentApi.custom_send _ _ _ _ _ ?w1] =>
      specialize (Hsend w1 method path ua Hm Hp Hc Hua) end.
    rewrite Hstart in Hsend. cbn [String.eqb Ascii.eqb Bool.eqb] in Hsend.
    destruct Hsend as (extra & -> & Hcid & _).
    eexists _, _, extra, _. split; [reflexivity|].
    cbn. rewrite <- app_assoc.
    split; [reflexivity|]. split; [|split; [done|apply context_id_insert]].
    rewrite lookup_union_r by done. by rewrite context_id_insert.
  - unfold DataStore.ObservabilityMiddleware_call, generate_correlation_id,
      set_correlation_id, ContextVar_set, mbind, M_bind, mret, M_ret, bind, ret.
    rewrite Hty. cbn [String.eqb Ascii.eqb Bool.eqb correlation_id cv_name].
    rewrite DataStore_log_with_context_run.
    rewrite logger_log_accepts by (rewrite first_reserved_union; [done | by vm_compute]).
    pose proof (DataStore_logs_and_forwards decode
                  (scope_set_correlation_id uuid4 scope) uuid4 send start) as Hsend.
    match goal with |- context [DataStore.custom_send _ _ _ _ _ ?w1] =>
      specialize (Hsend w1 method path ua Hm Hp Hc Hua) end.
    rewrite Hstart in Hsend. cbn [String.eqb Ascii.eqb Bool.eqb] in Hsend.
    destruct Hsend as (extra & -> & Hcid & _).
    eexists _, _, extra, _. split; [reflexivity|].
    cbn. rewrite <- app_assoc.
    split; [reflexivity|]. split; [|split; [done|apply context_id_insert]].
    rewrite lookup_union_r by done. by rewrite context_id_insert.
Qed.

Lemma request_records_carry_request_id_witness :
  ∃ lvl handler_record start_record w',
    DataStore.ObservabilityMiddleware_call Ok "550e8400-e29b"
      (λ _ _ send', DataStore.log_with_context "Document stored" "info"
                      {[ "client_id" := VStr "123" ]};; send' response_start)
      browser_scope tt (λ _, mret tt) example_world = (Ok tt, w')
    ∧ w_trace w' =
        [LoggerCall lvl "Document stored" handler_record;
         LoggerCall INFO "Request started" start_record]
    ∧ handler_record !! "correlation_id" = Some (VStr "550e8400-e29b")
    ∧ start_record !! "correlation_id" = Some (VStr "550e8400-e29b").
Proof.
  destruct request_records_carry_request_id as [_ H].
  edestruct (H Ok "550e8400-e29b" browser_scope (λ _, mret tt) example_world
               "Document stored" "info" {[ "client_id" := VStr "123" ]}
               response_start "GET" "/documents" "curl/8.5")
    as (lvl & handler_record & start_record & w' & Hrun & Htrace & Hh & Hs & _);
    [reflexivity | reflexivity | reflexivity | discriminate | reflexivity
    | reflexivity | reflexivity | reflexivity |].
  exists lvl, handler_record, start_record, w'.
  split; [exact Hrun|]. split; [exact Htrace|]. split; [exact Hh | exact Hs].
Defined.
